(** * cookietemple: the template synchronisation workflow

    A shallow embedding of [cookietemple/sync/sync.py] (class [TemplateSync])
    and the properties of its version comparator, policy filter and sync
    orchestrator.

    Modelling conventions.
    - Python strings are [string]; version components are unbounded
      non-negative integers ([N]); HTTP status codes and exit codes are [Z].
    - The methods of [TemplateSync] mutate the object, raise exceptions and
      call [sys.exit]; they are written in a state-and-exception monad [M].
      [sys.exit(n)] raises [SystemExit n], which (as in Python) is not an
      [Exception] and therefore passes through [except Exception].
    - Everything outside the process (the file system, the git repository,
      the configuration parser's view of [cookietemple.cfg], GitHub) answers
      through a read-only [World] of oracles; every external command the
      code issues is appended to a trace of [event]s.  The only piece of
      repository state the model tracks itself is the checked-out branch.
    - [print] and [log.debug] calls are not modelled.
    - [repo.active_branch] is taken to succeed (HEAD attached to a branch). *)

From Stdlib Require Import String Ascii List Bool ZArith NArith Lia Permutation.
Import ListNotations.
Open Scope string_scope.

(** ** Python values and exceptions *)

(** The values a YAML mapping or a JSON object holds, as far as the code
    inspects them. *)
Inductive pyval : Type :=
| PNone
| PBool (b : bool)
| PStr (s : string).

(** Python truthiness, as used by [if self.dot_cookietemple['is_github_orga']]. *)
Definition truthy (v : pyval) : bool :=
  match v with
  | PNone => false
  | PBool b => b
  | PStr s => negb (s =? "")
  end.

Inductive exn : Type :=
| GitCommandError
| InvalidGitRepositoryError
| NoSectionError
| KeyError (key : string)
| RequestException
| SystemExit (code : Z)
| OtherException (name : string).

(** [isinstance(e, Exception)]: everything but [SystemExit]. *)
Definition is_Exception (e : exn) : bool :=
  match e with
  | SystemExit _ => false
  | _ => true
  end.

Definition is_GitCommandError (e : exn) : bool :=
  match e with GitCommandError => true | _ => false end.

Definition is_InvalidGitRepositoryError (e : exn) : bool :=
  match e with InvalidGitRepositoryError => true | _ => false end.

Definition is_NoSectionError (e : exn) : bool :=
  match e with NoSectionError => true | _ => false end.

Definition is_RequestException (e : exn) : bool :=
  match e with RequestException => true | _ => false end.

(** A Python [dict] with string keys; [d[k]] raises [KeyError]. *)
Definition dict : Type := list (string * pyval).

Fixpoint dict_get (d : dict) (k : string) : option pyval :=
  match d with
  | [] => None
  | (k', v) :: d' => if k' =? k then Some v else dict_get d' k
  end.

(** [needle in haystack] on Python strings. *)
Fixpoint str_contains (needle haystack : string) : bool :=
  prefix needle haystack ||
  match haystack with
  | EmptyString => false
  | String _ rest => str_contains needle rest
  end.

(** ** The parsed view of cookietemple.cfg

    [parser.items(section)] either raises [NoSectionError] or returns the
    list of (key, value) pairs of the section. *)
Definition config : Type := list (string * list (string * string)).

Fixpoint config_items (cfg : config) (section : string)
  : option (list (string * string)) :=
  match cfg with
  | [] => None
  | (name, items) :: cfg' =>
      if name =? section then Some items else config_items cfg' section
  end.

(** ** Versions *)

(** What the code reads of a [packaging.version.Version]: the three release
    components and its [str()]. *)
Record Version : Type := mkVersion {
  major : N;
  minor : N;
  micro : N;
  version_str : string
}.

(** ** Requests and responses *)

(** The JSON body of the pull request that [submit_pull_request] posts. *)
Record pr_content : Type := mkPrContent {
  pr_title : string;
  pr_body : string;
  pr_maintainer_can_modify : bool;
  pr_head : string;
  pr_base : string
}.

(** The response to the POST: the status code, the raw content, and the
    decoded content ([json.loads(r.content)]) or the exception decoding
    raises. *)
Record response : Type := mkResponse {
  status_code : Z;
  content : string;
  content_json : exn + string
}.

(** [self.gh_pr_returned_data]: the empty dict it starts as, the decoded
    response, or the raw content. *)
Inductive returned_data : Type :=
| EmptyData
| Decoded (json : string)
| RawContent (raw : string).

Inductive entry_kind : Type := IsFile | IsDir | IsOther.

(** An entry of [os.listdir(project_dir)]: its name, what [os.path.isfile] /
    [os.path.isdir] say, and the exception deleting it raises, if any. *)
Record dir_entry : Type := mkDirEntry {
  entry_name : string;
  kind : entry_kind;
  delete_error : option exn
}.

(** ** External commands issued by the code *)

Inductive event : Type :=
| GitCheckoutNew (start_point branch : string)   (* git checkout -b branch start_point *)
| GitCheckout (ref : string)                     (* git checkout ref *)
| Unlink (path : string)
| Rmtree (path : string)
| ChooseDomain (dot : dict)
| CopyTree (slug : pyval) (dst : string)
| GitAddAll                                      (* git add -A *)
| Popen (argv : list string)
| SetTrackingBranch (remote_ref : string)
| GitPushForce
| HttpGetOpenPulls (owner slug : pyval) (tok : string)
| HttpPostPull (owner slug : pyval) (body : pr_content) (user tok : string).

(** ** The world: answers of everything outside the process *)

Record World : Type := mkWorld {
  (* module-level collaborators that are not part of sync.py *)
  load_github_username : string;
  decrypt_pat : string;
  abspath : string -> string;
  load_project_template_version_and_handle : string -> exn + (string * string);
  load_ct_template_version : string -> exn + string;
  version_parse : string -> exn + Version;
  (* the project directory *)
  path_exists : string -> bool;
  load_yaml_file : string -> exn + dict;
  git_repo_error : string -> option exn;     (* git.Repo(path) *)
  dirty_at_inspection : bool;
  listdir : list dir_entry;
  choose_domain_error : option exn;
  copy_tree_error : option exn;
  dirty_after_regeneration : bool;
  read_config : string -> config;     (* ConfigParser().read(path) *)
  (* git *)
  checkout_new_ok : bool;             (* checkout -b TEMPLATE origin/TEMPLATE *)
  checkout_ok : string -> bool;       (* checkout of an existing ref *)
  git_add_error : option exn;
  index_diff_head : list string;      (* a_path of every staged change *)
  popen_error : list string -> option exn;   (* launching a subprocess *)
  popen_returncode : list string -> Z;       (* its exit status, once it ends *)
  remote_origin_error : option exn;   (* repo.remote('origin'), origin.refs.TEMPLATE *)
  git_push_error : option exn;
  (* GitHub *)
  open_pulls : exn + list dict;       (* GET .../pulls?state=open, decoded *)
  post_pull : exn + response          (* POST .../pulls *)
}.

(** ** The TemplateSync object and the machine state *)

Record TemplateSync : Type := mkTemplateSync {
  project_dir : string;
  from_branch : option string;
  original_branch : option string;
  made_changes : bool;
  gh_pr_returned_data : returned_data;
  major_update : bool;
  minor_update : bool;
  patch_update : bool;
  gh_username : string;
  token : string;
  dot_cookietemple : dict;
  repo_owner : pyval;
  new_template_version : string
}.

(** The object, the branch the repository has checked out, and the external
    commands issued so far (oldest first). *)
Record St : Type := mkSt {
  self : TemplateSync;
  active_branch : string;
  trace : list event
}.

(** ** fnmatch

    [fnmatch.filter(names, pat)] on POSIX keeps the names that the regular
    expression [fnmatch.translate(pat)] matches in full: [*] matches any
    string (also across [/]), [?] any one character, [[seq]] any character of
    [seq], [[!seq]] any character not in it; a [[] without a closing []] is
    an ordinary character.  A range whose ends are in the wrong order holds
    no character.

    A character of a Python string is a code point.  A [string] here holds
    the UTF-8 encoding, so names and patterns are decoded first and matched
    code point by code point. *)

(** A continuation byte of a UTF-8 sequence: [10xxxxxx]. *)
Definition is_continuation (b : N) : bool := ((128 <=? b) && (b <? 192))%N.

(** The payload of the first byte of a UTF-8 sequence. *)
Definition lead_value (b : N) : N :=
  (if b <? 128 then b
   else if b <? 224 then b - 192
   else if b <? 240 then b - 224
   else b - 240)%N.

(** [cur] is the code point being assembled, if any. *)
Fixpoint code_points_from (cur : option N) (bytes : list ascii) : list N :=
  match bytes with
  | [] => match cur with Some cp => [cp] | None => [] end
  | b :: rest =>
      let n := N_of_ascii b in
      match cur with
      | Some cp =>
          if is_continuation n
          then code_points_from (Some (cp * 64 + (n - 128))%N) rest
          else cp :: code_points_from (Some (lead_value n)) rest
      | None => code_points_from (Some (lead_value n)) rest
      end
  end.

(** The code points of a string that holds valid UTF-8. *)
Definition code_points (s : string) : list N :=
  code_points_from None (list_ascii_of_string s).

(** The characters that a pattern gives a meaning to. *)
Definition chr_star : N := 42.
Definition chr_question : N := 63.
Definition chr_lbracket : N := 91.
Definition chr_rbracket : N := 93.
Definition chr_bang : N := 33.
Definition chr_dash : N := 45.

Inductive class_item : Type :=
| Single (c : N)
| Range (lo hi : N).

Inductive glob_item : Type :=
| AnyString
| AnyChar
| Lit (c : N)
| Class (negated : bool) (items : list class_item).

(** The characters up to the first []], if there is one. *)
Fixpoint until_rbracket (cs : list N) : option (list N) :=
  match cs with
  | [] => None
  | c :: rest =>
      if (c =? chr_rbracket)%N then Some []
      else option_map (cons c) (until_rbracket rest)
  end.

(** [stuff = pat[i:j]] for the characters [cs] that follow a [[]: an
    optional leading [!], an optional []] right after it, and everything up
    to the next []]; [None] when the bracket is never closed. *)
Definition class_stuff (cs : list N) : option (list N) :=
  let bang := match cs with c :: _ => (c =? chr_bang)%N | [] => false end in
  let cs1 := if bang then tl cs else cs in
  let first := match cs1 with c :: _ => (c =? chr_rbracket)%N | [] => false end in
  let cs2 := if first then tl cs1 else cs1 in
  match until_rbracket cs2 with
  | None => None
  | Some body =>
      Some ((if bang then [chr_bang] else [])
              ++ (if first then [chr_rbracket] else []) ++ body)%list
  end.

Fixpoint class_items (cs : list N) : list class_item :=
  match cs with
  | [] => []
  | lo :: rest =>
      match rest with
      | dash :: hi :: rest' =>
          if (dash =? chr_dash)%N then Range lo hi :: class_items rest'
          else Single lo :: class_items rest
      | _ => Single lo :: class_items rest
      end
  end.

Definition parse_class (stuff : list N) : glob_item :=
  match stuff with
  | c :: rest =>
      if (c =? chr_bang)%N then Class true (class_items rest)
      else Class false (class_items stuff)
  | [] => Class false []
  end.

(** [skip] counts the characters of a bracket expression still to be passed
    over. *)
Fixpoint translate_from (skip : nat) (cs : list N) : list glob_item :=
  match cs with
  | [] => []
  | c :: rest =>
      match skip with
      | S k => translate_from k rest
      | O =>
          if (c =? chr_star)%N then AnyString :: translate_from 0 rest
          else if (c =? chr_question)%N then AnyChar :: translate_from 0 rest
          else if (c =? chr_lbracket)%N then
            match class_stuff rest with
            | None => Lit c :: translate_from 0 rest
            | Some stuff => parse_class stuff :: translate_from (S (length stuff)) rest
            end
          else Lit c :: translate_from 0 rest
      end
  end.

Definition translate (pat : string) : list glob_item :=
  translate_from 0 (code_points pat).

Definition in_class_item (c : N) (it : class_item) : bool :=
  match it with
  | Single d => (c =? d)%N
  | Range lo hi => ((lo <=? c) && (c <=? hi))%N
  end.

Fixpoint match_items (items : list glob_item) (name : list N) : bool :=
  match items with
  | [] => match name with [] => true | _ => false end
  | AnyString :: items' =>
      (fix star (s : list N) : bool :=
         match_items items' s ||
         match s with
         | [] => false
         | _ :: s' => star s'
         end) name
  | AnyChar :: items' =>
      match name with
      | _ :: name' => match_items items' name'
      | [] => false
      end
  | Lit c :: items' =>
      match name with
      | d :: name' => (c =? d)%N && match_items items' name'
      | [] => false
      end
  | Class negated its :: items' =>
      match name with
      | d :: name' =>
          xorb negated (existsb (in_class_item d) its) && match_items items' name'
      | [] => false
      end
  end.

Definition fnmatchcase (name pat : string) : bool :=
  match_items (translate pat) (code_points name).

Definition fnmatch_filter (names : list string) (pat : string) : list string :=
  filter (fun name => fnmatchcase name pat) names.

(** ** The state-and-exception monad *)

Inductive result (A : Type) : Type :=
| Ret (a : A)
| Raise (e : exn).
Arguments Ret {A} a.
Arguments Raise {A} e.

Definition M (A : Type) : Type := St -> result A * St.

Definition ret {A} (a : A) : M A := fun s => (Ret a, s).

Definition bind {A B} (c : M A) (k : A -> M B) : M B :=
  fun s =>
    match c s with
    | (Ret a, s') => k a s'
    | (Raise e, s') => (Raise e, s')
    end.

Declare Scope monad_scope.
Delimit Scope monad_scope with monad.
Notation "x <- c ;; k" := (bind c (fun x => k))
  (at level 61, c at next level, right associativity) : monad_scope.
Notation "c ;; k" := (bind c (fun _ => k))
  (at level 61, right associativity) : monad_scope.
Open Scope monad_scope.

Definition raise {A} (e : exn) : M A := fun s => (Raise e, s).

(** [sys.exit(code)]. *)
Definition sys_exit {A} (code : Z) : M A := raise (SystemExit code).

(** [try: body except <catches> as e: handler e]. *)
Definition try_except {A} (body : M A) (catches : exn -> bool)
    (handler : exn -> M A) : M A :=
  fun s =>
    match body s with
    | (Raise e, s') => if catches e then handler e s' else (Raise e, s')
    | r => r
    end.

Definition of_sum {A} (x : exn + A) : M A :=
  match x with
  | inl e => raise e
  | inr a => ret a
  end.

(** An external call that returns nothing and may raise. *)
Definition of_error (x : option exn) : M unit :=
  match x with
  | Some e => raise e
  | None => ret tt
  end.

Definition get_self : M TemplateSync := fun s => (Ret (self s), s).

Definition modify_self (f : TemplateSync -> TemplateSync) : M unit :=
  fun s => (Ret tt, mkSt (f (self s)) (active_branch s) (trace s)).

Definition get_active_branch : M string := fun s => (Ret (active_branch s), s).

Definition set_active_branch (b : string) : M unit :=
  fun s => (Ret tt, mkSt (self s) b (trace s)).

Definition emit (e : event) : M unit :=
  fun s => (Ret tt, mkSt (self s) (active_branch s) (trace s ++ [e])).

(** [d[k]]. *)
Definition dict_lookup (d : dict) (k : string) : M pyval :=
  match dict_get d k with
  | Some v => ret v
  | None => raise (KeyError k)
  end.

(** Attribute assignments [self.x = v]. *)
Definition set_from_branch (v : option string) (o : TemplateSync) : TemplateSync :=
  mkTemplateSync (project_dir o) v (original_branch o) (made_changes o)
    (gh_pr_returned_data o) (major_update o) (minor_update o) (patch_update o)
    (gh_username o) (token o) (dot_cookietemple o) (repo_owner o)
    (new_template_version o).

Definition set_original_branch (v : option string) (o : TemplateSync) : TemplateSync :=
  mkTemplateSync (project_dir o) (from_branch o) v (made_changes o)
    (gh_pr_returned_data o) (major_update o) (minor_update o) (patch_update o)
    (gh_username o) (token o) (dot_cookietemple o) (repo_owner o)
    (new_template_version o).

Definition set_made_changes (v : bool) (o : TemplateSync) : TemplateSync :=
  mkTemplateSync (project_dir o) (from_branch o) (original_branch o) v
    (gh_pr_returned_data o) (major_update o) (minor_update o) (patch_update o)
    (gh_username o) (token o) (dot_cookietemple o) (repo_owner o)
    (new_template_version o).

Definition set_gh_pr_returned_data (v : returned_data) (o : TemplateSync) : TemplateSync :=
  mkTemplateSync (project_dir o) (from_branch o) (original_branch o) (made_changes o)
    v (major_update o) (minor_update o) (patch_update o)
    (gh_username o) (token o) (dot_cookietemple o) (repo_owner o)
    (new_template_version o).

Definition set_dot_cookietemple (v : dict) (o : TemplateSync) : TemplateSync :=
  mkTemplateSync (project_dir o) (from_branch o) (original_branch o) (made_changes o)
    (gh_pr_returned_data o) (major_update o) (minor_update o) (patch_update o)
    (gh_username o) (token o) v (repo_owner o)
    (new_template_version o).

Definition set_repo_owner (v : pyval) (o : TemplateSync) : TemplateSync :=
  mkTemplateSync (project_dir o) (from_branch o) (original_branch o) (made_changes o)
    (gh_pr_returned_data o) (major_update o) (minor_update o) (patch_update o)
    (gh_username o) (token o) (dot_cookietemple o) v
    (new_template_version o).

(** [os.path.join(a, b)] for a relative [b]. *)
Definition ends_with_slash (a : string) : bool :=
  match rev (list_ascii_of_string a) with
  | c :: _ => (c =? "/")%char
  | [] => false
  end.

Definition path_join (a b : string) : string :=
  if (a =? "") || ends_with_slash a then a ++ b else a ++ "/" ++ b.

(** [x if x else default] on an optional string argument. *)
Definition or_else (x : option string) (default : string) : string :=
  match x with
  | Some s => if s =? "" then default else s
  | None => default
  end.

(** ** Version Comparator: the comparison of has_template_version_changed *)

(** The three booleans [(is_major_update, is_minor_update, is_patch_update)]
    the [if] / [elif] chain computes. *)
Definition version_flags (last_sync current : Version) : bool * bool * bool :=
  if (major last_sync <? major current)%N then (true, false, false)
  else if (minor last_sync <? minor current)%N then (false, true, false)
  else if (micro last_sync <? micro current)%N then (false, false, true)
  else (false, false, false).

(** ** Policy Filter: the file lists of commit_template_changes *)

(** The loop [for pattern in globs: blacklisted_changed_files +=
    fnmatch.filter(changed_files, pattern)]. *)
Definition blacklisted_changed_files (changed_files globs : list string)
  : list string :=
  fold_left (fun acc pattern => acc ++ fnmatch_filter changed_files pattern)%list
            globs [].

(** [file in files]. *)
Definition str_in (file : string) (files : list string) : bool :=
  existsb (String.eqb file) files.

(** [[file for file in changed_files if file not in blacklisted_changed_files]]. *)
Definition files_to_commit (changed_files globs : list string) : list string :=
  filter (fun file => negb (str_in file (blacklisted_changed_files changed_files globs)))
         changed_files.

Definition sync_pr_title_prefix : string := "Important cookietemple template update".

Definition pr_body_text : string :=
  "A new release of the main template in cookietemple has just been released. "
  ++ "This automated pull-request attempts to apply the relevant updates to this Project."
  ++ String "010" (String "010" "")
  ++ "Please make sure to merge this pull-request as soon as possible. "
  ++ "Once complete, make a new minor release of your Project."
  ++ String "010" (String "010" "")
  ++ "For more information on the actual changes, read the latest cookietemple changelog.".

(** ** The methods of TemplateSync *)

(** [TemplateSync.__init__]. *)
Definition TemplateSync_init (w : World) (project_dir new_template_version : string)
    (from_branch gh_username token : option string)
    (major_update minor_update patch_update : bool) : TemplateSync :=
  let user := or_else gh_username (load_github_username w) in
  mkTemplateSync (abspath w project_dir) from_branch None false EmptyData
    major_update minor_update patch_update
    user (or_else token (decrypt_pat w)) [] (PStr user) new_template_version.

(** The path whose sections [check_sync_level] and
    [get_blacklisted_sync_globs] read: [f'{self.project_dir}/cookietemple.cfg']. *)
Definition cfg_path (o : TemplateSync) : string :=
  project_dir o ++ "/cookietemple.cfg".

Section Methods.

Variable w : World.

(** [self.repo.git.checkout(start_point, b=branch)]. *)
Definition git_checkout_new (start_point branch : string) : M unit :=
  emit (GitCheckoutNew start_point branch) ;;
  if checkout_new_ok w then set_active_branch branch else raise GitCommandError.

(** [repo.git.checkout(ref)]. *)
Definition git_checkout (ref : string) : M unit :=
  emit (GitCheckout ref) ;;
  if checkout_ok w ref then set_active_branch ref else raise GitCommandError.

(** [parser = ConfigParser(); parser.read(f'{self.project_dir}/cookietemple.cfg');
    list(parser.items(section))]. *)
Definition parser_items (section : string) : M (list (string * string)) :=
  o <- get_self ;;
  match config_items (read_config w (cfg_path o)) section with
  | Some items => ret items
  | None => raise NoSectionError
  end.

(** [self.repo.active_branch.name] is read off the state: the model covers
    a repository whose HEAD is on a branch (on a detached HEAD the property
    raises [TypeError], which is outside the model). *)
Definition inspect_sync_dir : M unit :=
  o <- get_self ;;
  let yml := path_join (project_dir o) ".cookietemple.yml" in
  (if negb (path_exists w yml) then sys_exit 1 else ret tt) ;;
  dot <- of_sum (load_yaml_file w yml) ;;
  modify_self (set_dot_cookietemple dot) ;;
  try_except (of_error (git_repo_error w (project_dir o)))
    is_InvalidGitRepositoryError (fun _ => sys_exit 1) ;;
  b <- get_active_branch ;;
  modify_self (set_original_branch (Some b)) ;;
  if dirty_at_inspection w then sys_exit 1 else ret tt.

Definition checkout_template_branch : M unit :=
  b <- get_active_branch ;;
  modify_self (set_from_branch (Some b)) ;;
  try_except (git_checkout_new "origin/TEMPLATE" "TEMPLATE") is_GitCommandError
    (fun _ =>
       try_except (git_checkout "TEMPLATE") is_GitCommandError
         (fun _ => sys_exit 1)).

Fixpoint delete_entries (dir : string) (entries : list dir_entry) : M unit :=
  match entries with
  | [] => ret tt
  | e :: rest =>
      if entry_name e =? ".git" then delete_entries dir rest
      else
        let file_path := path_join dir (entry_name e) in
        try_except
          (match kind e with
           | IsFile => emit (Unlink file_path) ;; of_error (delete_error e)
           | IsDir => emit (Rmtree file_path) ;; of_error (delete_error e)
           | IsOther => ret tt
           end)
          is_Exception (fun _ => sys_exit 1) ;;
        delete_entries dir rest
  end.

Definition delete_template_branch_files : M unit :=
  o <- get_self ;;
  delete_entries (project_dir o) (listdir w).

Definition make_template_project : M unit :=
  o <- get_self ;;
  emit (ChooseDomain (dot_cookietemple o)) ;;
  of_error (choose_domain_error w) ;;
  slug <- dict_lookup (dot_cookietemple o) "project_slug" ;;
  emit (CopyTree slug (project_dir o)) ;;
  of_error (copy_tree_error w).

Definition get_blacklisted_sync_globs : M (list string) :=
  try_except
    (globs <- parser_items "sync_files_blacklisted" ;;
     ret (map snd globs))
    is_NoSectionError (fun _ => sys_exit 1).

(** [Popen(argv, stdout=PIPE, stderr=PIPE, universal_newlines=True)]: the
    child is started; nothing waits for it or reads its exit status. *)
Definition popen (argv : list string) : M unit :=
  emit (Popen argv) ;;
  of_error (popen_error w argv).

Definition commit_template_changes : M bool :=
  if negb (dirty_after_regeneration w) then ret false
  else
    try_except
      (emit GitAddAll ;;
       of_error (git_add_error w) ;;
       let changed_files := index_diff_head w in
       globs <- get_blacklisted_sync_globs ;;
       popen (["git"; "commit"; "-m"; "Cookietemple sync"]
                ++ files_to_commit changed_files globs)%list ;;
       popen ["git"; "stash"] ;;
       modify_self (set_made_changes true))
      is_Exception (fun _ => sys_exit 1) ;;
    ret true.

Definition push_template_branch : M unit :=
  try_except
    (of_error (remote_origin_error w) ;;
     emit (SetTrackingBranch "origin/TEMPLATE") ;;
     emit GitPushForce ;;
     of_error (git_push_error w))
    is_GitCommandError (fun _ => sys_exit 1).

Fixpoint sync_pr_among (query_data : list dict) : M bool :=
  match query_data with
  | [] => ret false
  | pull_request :: rest =>
      title <- dict_lookup pull_request "title" ;;
      match title with
      | PStr t =>
          if str_contains sync_pr_title_prefix t then ret true
          else sync_pr_among rest
      | _ => raise (OtherException "TypeError")
      end
  end.

Definition check_pull_request_exists : M bool :=
  o <- get_self ;;
  slug <- dict_lookup (dot_cookietemple o) "project_slug" ;;
  emit (HttpGetOpenPulls (repo_owner o) slug (token o)) ;;
  query_data <- of_sum (open_pulls w) ;;
  sync_pr_among query_data.

Definition submit_pull_request (title body : string) : M unit :=
  o <- get_self ;;
  let pr := mkPrContent title body true "TEMPLATE" "development" in
  slug <- dict_lookup (dot_cookietemple o) "project_slug" ;;
  emit (HttpPostPull (repo_owner o) slug pr (gh_username o) (token o)) ;;
  r <- of_sum (post_pull w) ;;
  try_except
    (data <- of_sum (content_json r) ;;
     modify_self (set_gh_pr_returned_data (Decoded data)))
    is_RequestException
    (fun _ => modify_self (set_gh_pr_returned_data (RawContent (content r)))) ;;
  if (status_code r =? 201)%Z then ret tt else sys_exit 1.

Definition make_pull_request : M unit :=
  o <- get_self ;;
  is_orga <- dict_lookup (dot_cookietemple o) "is_github_orga" ;;
  (if truthy is_orga then
     orga <- dict_lookup (dot_cookietemple o) "github_orga" ;;
     modify_self (set_repo_owner orga)
   else ret tt) ;;
  let title := sync_pr_title_prefix ++ " " ++ new_template_version o ++ " released!" in
  pr_exists <- check_pull_request_exists ;;
  if negb pr_exists then submit_pull_request title pr_body_text else ret tt.

Definition valid_level (lvl : string) : bool :=
  existsb (String.eqb lvl) ["major"; "minor"; "patch"].

Definition check_sync_level : M bool :=
  try_except
    (level_item <- parser_items "sync_level" ;;
     o <- get_self ;;
     match level_item with
     | [(key, lvl)] =>
         if negb (str_contains "ct_sync_level" key) || negb (valid_level lvl)
         then sys_exit 1
         else if patch_update o then ret (negb (lvl =? "minor") && negb (lvl =? "major"))
         else if minor_update o then ret (negb (lvl =? "major"))
         else ret true
     | _ => sys_exit 1
     end)
    is_NoSectionError (fun _ => sys_exit 1).

(** [self.repo.git.checkout(self.original_branch)]; an argument that is
    [None] is dropped by the git wrapper, leaving a bare [git checkout]. *)
Definition reset_target_dir : M unit :=
  o <- get_self ;;
  try_except
    (match original_branch o with
     | Some b => git_checkout b
     | None => ret tt
     end)
    is_GitCommandError (fun _ => sys_exit 1).

Definition sync : M unit :=
  inspect_sync_dir ;;
  checkout_template_branch ;;
  delete_template_branch_files ;;
  make_template_project ;;
  commit_template_changes ;;
  o <- get_self ;;
  (if made_changes o then
     try_except (push_template_branch ;; make_pull_request)
       is_Exception (fun _ => reset_target_dir ;; sys_exit 1)
   else ret tt) ;;
  reset_target_dir.

(** The static method [has_template_version_changed(project_dir)]. *)
Definition has_template_version_changed (dir : string)
  : M (bool * bool * bool * string * string) :=
  of_error (git_repo_error w dir) ;;
  try_except (git_checkout "development") is_GitCommandError
    (fun _ =>
       try_except (git_checkout "master") is_GitCommandError
         (fun _ => sys_exit 1)) ;;
  vh <- of_sum (load_project_template_version_and_handle w dir) ;;
  template_version_last_sync <- of_sum (version_parse w (fst vh)) ;;
  current_text <- of_sum (load_ct_template_version w (snd vh)) ;;
  current_ct_template_version <- of_sum (version_parse w current_text) ;;
  ret (version_flags template_version_last_sync current_ct_template_version,
       version_str template_version_last_sync,
       version_str current_ct_template_version).

End Methods.

(** ** Update tiers and policies, as the caller hands them to the object *)

Inductive tier : Type := MajorTier | MinorTier | PatchTier.

(** The flags the version comparator returns for an update of each tier. *)
Definition tier_flags (t : tier) : bool * bool * bool :=
  match t with
  | MajorTier => (true, false, false)
  | MinorTier => (false, true, false)
  | PatchTier => (false, false, true)
  end.

(** The object carries the flags [(major_update, minor_update, patch_update)]. *)
Definition update_flags (o : TemplateSync) : bool * bool * bool :=
  (major_update o, minor_update o, patch_update o).

(** How many of the three flags are set. *)
Definition flags_set (f : bool * bool * bool) : nat :=
  let '(ma, mi, pa) := f in
  (if ma then 1 else 0) + (if mi then 1 else 0) + (if pa then 1 else 0).

(** ** Sample versions *)

(** Versions used in the examples; none is an update of 2.0.0. *)
Definition v2_0_0 : Version := mkVersion 2 0 0 "2.0.0".
Definition v1_5_0 : Version := mkVersion 1 5 0 "1.5.0".
Definition v1_2_3 : Version := mkVersion 1 2 3 "1.2.3".
Definition v1_2_4 : Version := mkVersion 1 2 4 "1.2.4".
Definition v1_3_0 : Version := mkVersion 1 3 0 "1.3.0".

(** ** Notions used to state the properties *)

(** The world [w] with other exit statuses of the subprocesses. *)
Definition with_returncode (w : World) (returncode : list string -> Z) : World :=
  mkWorld (load_github_username w) (decrypt_pat w) (abspath w)
    (load_project_template_version_and_handle w) (load_ct_template_version w)
    (version_parse w) (path_exists w) (load_yaml_file w) (git_repo_error w)
    (dirty_at_inspection w) (listdir w) (choose_domain_error w)
    (copy_tree_error w) (dirty_after_regeneration w) (read_config w)
    (checkout_new_ok w) (checkout_ok w) (git_add_error w) (index_diff_head w)
    (popen_error w) returncode (remote_origin_error w) (git_push_error w)
    (open_pulls w) (post_pull w).

(** The command line of the commit. *)
Definition commit_argv (changed_files globs : list string) : list string :=
  (["git"; "commit"; "-m"; "Cookietemple sync"]
     ++ files_to_commit changed_files globs)%list.

(** An open pull request whose title contains the fixed opening words of a
    sync pull request's title. *)
Definition carries_sync_title (pull_request : dict) : bool :=
  match dict_get pull_request "title" with
  | Some (PStr t) => str_contains sync_pr_title_prefix t
  | _ => false
  end.

(** Following the words of the specification: an open pull request whose
    title starts with the sync words. *)
Definition has_sync_title_prefix (pull_request : dict) : bool :=
  match dict_get pull_request "title" with
  | Some (PStr t) => prefix sync_pr_title_prefix t
  | _ => false
  end.

(** An entry of the answer that has a string under ["title"]. *)
Definition has_title (pull_request : dict) : Prop :=
  exists t, dict_get pull_request "title" = Some (PStr t).

(** [f'Important cookietemple template update {self.new_template_version} released!']. *)
Definition sync_pr_title (o : TemplateSync) : string :=
  sync_pr_title_prefix ++ " " ++ new_template_version o ++ " released!".

(** The owner under which the pull requests of the project live. *)
Definition pull_owner (o : TemplateSync) (is_orga orga : pyval) : pyval :=
  if truthy is_orga then orga else repo_owner o.

(** [preserves P c]: running [c] from a state in [P] ends in a state in [P],
    whether [c] returns or raises. *)
Definition preserves {A} (P : St -> Prop) (c : M A) : Prop :=
  forall s, P s -> P (snd (c s)).

(** Inspecting, BranchCheckout and RegenerateTemplate. *)
Definition sync_until_regenerated (w : World) : M unit :=
  inspect_sync_dir w ;;
  checkout_template_branch w ;;
  delete_template_branch_files w ;;
  make_template_project w.

(** ... and Committing. *)
Definition sync_until_commit (w : World) : M bool :=
  sync_until_regenerated w ;;
  commit_template_changes w.

(** The body of the [try] in [sync]. *)
Definition push_and_pr (w : World) : M unit :=
  push_template_branch w ;;
  make_pull_request w.

(** What [sync] does after [commit_template_changes]. *)
Definition sync_after_commit (w : World) : M unit :=
  o <- get_self ;;
  (if made_changes o then
     try_except (push_and_pr w)
       is_Exception (fun _ => reset_target_dir w ;; sys_exit 1)
   else ret tt) ;;
  reset_target_dir w.

(** The events by which a commit, a push or a pull request comes about. *)
Definition commits_pushes_or_requests (e : event) : bool :=
  match e with
  | GitAddAll | Popen _ | SetTrackingBranch _ | GitPushForce
  | HttpGetOpenPulls _ _ _ | HttpPostPull _ _ _ _ _ => true
  | _ => false
  end.

(** No change recorded, and nothing committed, pushed or requested so far. *)
Definition quiet (s : St) : Prop :=
  made_changes (self s) = false /\
  Forall (fun e => commits_pushes_or_requests e = false) (trace s).

(** The branch recorded by Inspecting is [b]. *)
Definition recorded (b : string) (s : St) : Prop :=
  original_branch (self s) = Some b.

(** ** Example worlds *)

Definition example_dot : dict :=
  [("project_slug", PStr "demo"); ("is_github_orga", PBool false);
   ("github_orga", PStr "")].

Definition example_config : config :=
  [("sync_level", [("ct_sync_level", "minor")]);
   ("sync_files_blacklisted", [("changelog", "*.md")])].

(** A configuration file that lacks the [sync_files_blacklisted] section. *)
Definition config_without_blacklist : config :=
  [("sync_level", [("ct_sync_level", "minor")])].

Definition example_versions (text : string) : exn + Version :=
  if text =? "1.2.3" then inr v1_2_3
  else if text =? "1.3.0" then inr v1_3_0
  else inl (OtherException "InvalidVersion").

(** A project on branch [development] with a remote TEMPLATE branch, whose
    staged changes after regeneration are three files.  The parameters are
    what the examples vary: whether the scaffold engine fails, whether the
    regenerated working copy is dirty, the configuration file, the exit
    status of the subprocesses, whether looking up the remote or pushing
    fails, and the open pull requests. *)
Definition example_world (choose_domain_err : option exn) (dirty_after : bool)
    (cfg : config) (returncode : Z) (origin_err push_err : option exn)
    (pulls : exn + list dict) : World :=
  mkWorld "alice" "secret" (fun p => p)
    (fun _ => inr ("1.2.3", "cli-python")) (fun _ => inr "1.3.0")
    example_versions
    (fun _ => true) (fun _ => inr example_dot) (fun _ => None) false
    [mkDirEntry ".git" IsDir None; mkDirEntry "README.md" IsFile None;
     mkDirEntry "src" IsDir None]
    choose_domain_err None dirty_after (fun _ => cfg)
    true (fun _ => true) None ["a.txt"; "b/c.md"; "d.yml"]
    (fun _ => None) (fun _ => returncode) origin_err push_err
    pulls (inr (mkResponse 201 "{}" (inr "{}"))).

(** A freshly constructed object for a minor update, on [development]. *)
Definition example_session (w : World) : St :=
  mkSt (TemplateSync_init w "/home/alice/demo" "1.3.0" None None None
          false true false)
       "development" [].

(** The same once [.cookietemple.yml] has been loaded. *)
Definition inspected_session (w : World) : St :=
  mkSt (set_dot_cookietemple example_dot (self (example_session w)))
       "development" [].

(** A freshly constructed object with no update flag set. *)
Definition no_update_session (w : World) : St :=
  mkSt (TemplateSync_init w "/home/alice/demo" "1.2.3" None None None
          false false false)
       "development" [].

Definition nominal_world : World :=
  example_world None true example_config 0 None None (inr []).

(** The scaffold engine fails. *)
Definition world_regeneration_fails : World :=
  example_world (Some (OtherException "RuntimeError")) true example_config 0
    None None (inr []).

(** Regeneration changes nothing. *)
Definition world_no_changes : World :=
  example_world None false example_config 0 None None (inr []).

(** The configuration file has no [sync_files_blacklisted] section. *)
Definition world_no_blacklist_section : World :=
  example_world None true config_without_blacklist 0 None None (inr []).

(** The configuration file has no section at all. *)
Definition world_empty_config : World :=
  example_world None true [] 0 None None (inr []).

(** The commit and the stash end with exit status 1. *)
Definition world_commit_fails : World :=
  example_world None true example_config 1 None None (inr []).

(** The repository has no remote called origin: [repo.remote('origin')]
    raises a [ValueError]. *)
Definition world_no_origin : World :=
  example_world None true example_config 0
    (Some (OtherException "ValueError")) None (inr []).

(** The push is rejected: [repo.git.push] raises [GitCommandError]. *)
Definition world_push_rejected : World :=
  example_world None true example_config 0 None (Some GitCommandError) (inr []).

(** An open pull request carries the sync words in its title, but not at its
    start. *)
Definition world_open_wip_pr : World :=
  example_world None true example_config 0 None None
    (inr [[("title",
            PStr "WIP: Important cookietemple template update 1.2.0 released!")]]).

(** A sync pull request is open already. *)
Definition world_open_sync_pr : World :=
  example_world None true example_config 0 None None
    (inr [[("title", PStr "Fix typo")];
          [("title", PStr "Important cookietemple template update 1.2.0 released!")]]).

(** ** Further notions: deletion, flags, and the generated Flask routes *)

(** The path of [.cookietemple.yml] in the project directory. *)
Definition dot_cookietemple_path (o : TemplateSync) : string :=
  path_join (project_dir o) ".cookietemple.yml".

(** The deletion that [delete_template_branch_files] issues for one entry of
    the directory listing, if any. *)
Definition deletion_event (dir : string) (e : dir_entry) : list event :=
  if entry_name e =? ".git" then []
  else
    match kind e with
    | IsFile => [Unlink (path_join dir (entry_name e))]
    | IsDir => [Rmtree (path_join dir (entry_name e))]
    | IsOther => []
    end.

(** An entry whose deletion is attempted and raises. *)
Definition deletion_fails (e : dir_entry) : option exn :=
  if entry_name e =? ".git" then None
  else
    match kind e with
    | IsOther => None
    | _ => delete_error e
    end.

(** The assignment [self.major_update = v], which no method performs; used to
    compare objects that differ in this flag only. *)
Definition set_major_update (v : bool) (o : TemplateSync) : TemplateSync :=
  mkTemplateSync (project_dir o) (from_branch o) (original_branch o) (made_changes o)
    (gh_pr_returned_data o) v (minor_update o) (patch_update o)
    (gh_username o) (token o) (dot_cookietemple o) (repo_owner o)
    (new_template_version o).

(** The attributes that identify the session: set by the constructor. *)
Definition identity (o : TemplateSync)
  : string * string * string * string * (bool * bool * bool) :=
  (project_dir o, gh_username o, token o, new_template_version o, update_flags o).

Definition is_post (e : event) : bool :=
  match e with HttpPostPull _ _ _ _ _ => true | _ => false end.

Definition is_copy_tree (e : event) : bool :=
  match e with CopyTree _ _ => true | _ => false end.

(** *** The routes of the generated Flask project (main/routes.py)

    A view function reads and writes the session, a dictionary, and answers
    with a redirect or a rendered template; [url_for] is Flask's. *)

Inductive flask_response : Type :=
| Redirect (location : string)
| RenderTemplate (name : string).

(** [d[k] = v] on a dictionary. *)
Fixpoint dict_set (d : dict) (k : string) (v : pyval) : dict :=
  match d with
  | [] => [(k, v)]
  | (k', v') :: d' =>
      if k' =? k then (k, v) :: d' else (k', v') :: dict_set d' k v
  end.

Section Routes.

Variable url_for : string -> string.

(** [set_language(language=None)]. *)
Definition set_language (language : pyval) (session : dict) : flask_response * dict :=
  (Redirect (url_for "main.index"), dict_set session "language" language).

Definition root (session : dict) : flask_response * dict :=
  (Redirect (url_for "main.index"), session).

Definition index (session : dict) : flask_response * dict :=
  (RenderTemplate "index.html", session).

End Routes.

(** What [sync] does after [inspect_sync_dir]. *)
Definition sync_after_inspection (w : World) : M unit :=
  checkout_template_branch w ;;
  delete_template_branch_files w ;;
  make_template_project w ;;
  commit_template_changes w ;;
  o <- get_self ;;
  (if made_changes o then
     try_except (push_template_branch w ;; make_pull_request w)
       is_Exception (fun _ => reset_target_dir w ;; sys_exit 1)
   else ret tt) ;;
  reset_target_dir w.

(** The repository is on the branch [b] or on TEMPLATE, and [b] is the
    branch recorded for restoration. *)
Definition on_original_or_template (b : string) (s : St) : Prop :=
  recorded b s /\ (active_branch s = b \/ active_branch s = "TEMPLATE").

(** No pull request has been submitted so far. *)
Definition nothing_posted (s : St) : Prop :=
  forall e, In e (trace s) -> is_post e = false.

(** *** Variations of a world, for the examples *)

Definition with_inspection (w : World) (file_exists : bool)
    (repo_err : option exn) (dirty : bool) : World :=
  mkWorld (load_github_username w) (decrypt_pat w) (abspath w)
    (load_project_template_version_and_handle w) (load_ct_template_version w)
    (version_parse w) (fun _ => file_exists) (load_yaml_file w) (fun _ => repo_err)
    dirty (listdir w) (choose_domain_error w)
    (copy_tree_error w) (dirty_after_regeneration w) (read_config w)
    (checkout_new_ok w) (checkout_ok w) (git_add_error w) (index_diff_head w)
    (popen_error w) (popen_returncode w) (remote_origin_error w) (git_push_error w)
    (open_pulls w) (post_pull w).

Definition with_checkout (w : World) (new_ok : bool) (ok : string -> bool) : World :=
  mkWorld (load_github_username w) (decrypt_pat w) (abspath w)
    (load_project_template_version_and_handle w) (load_ct_template_version w)
    (version_parse w) (path_exists w) (load_yaml_file w) (git_repo_error w)
    (dirty_at_inspection w) (listdir w) (choose_domain_error w)
    (copy_tree_error w) (dirty_after_regeneration w) (read_config w)
    new_ok ok (git_add_error w) (index_diff_head w)
    (popen_error w) (popen_returncode w) (remote_origin_error w) (git_push_error w)
    (open_pulls w) (post_pull w).

Definition with_listdir (w : World) (entries : list dir_entry) : World :=
  mkWorld (load_github_username w) (decrypt_pat w) (abspath w)
    (load_project_template_version_and_handle w) (load_ct_template_version w)
    (version_parse w) (path_exists w) (load_yaml_file w) (git_repo_error w)
    (dirty_at_inspection w) entries (choose_domain_error w)
    (copy_tree_error w) (dirty_after_regeneration w) (read_config w)
    (checkout_new_ok w) (checkout_ok w) (git_add_error w) (index_diff_head w)
    (popen_error w) (popen_returncode w) (remote_origin_error w) (git_push_error w)
    (open_pulls w) (post_pull w).


Definition with_post_pull (w : World) (answer : exn + response) : World :=
  mkWorld (load_github_username w) (decrypt_pat w) (abspath w)
    (load_project_template_version_and_handle w) (load_ct_template_version w)
    (version_parse w) (path_exists w) (load_yaml_file w) (git_repo_error w)
    (dirty_at_inspection w) (listdir w) (choose_domain_error w)
    (copy_tree_error w) (dirty_after_regeneration w) (read_config w)
    (checkout_new_ok w) (checkout_ok w) (git_add_error w) (index_diff_head w)
    (popen_error w) (popen_returncode w) (remote_origin_error w) (git_push_error w)
    (open_pulls w) answer.

Definition with_config (w : World) (cfg : config) : World :=
  mkWorld (load_github_username w) (decrypt_pat w) (abspath w)
    (load_project_template_version_and_handle w) (load_ct_template_version w)
    (version_parse w) (path_exists w) (load_yaml_file w) (git_repo_error w)
    (dirty_at_inspection w) (listdir w) (choose_domain_error w)
    (copy_tree_error w) (dirty_after_regeneration w) (fun _ => cfg)
    (checkout_new_ok w) (checkout_ok w) (git_add_error w) (index_diff_head w)
    (popen_error w) (popen_returncode w) (remote_origin_error w) (git_push_error w)
    (open_pulls w) (post_pull w).

Definition with_versions (w : World) (last_sync current : exn + string) : World :=
  mkWorld (load_github_username w) (decrypt_pat w) (abspath w)
    (fun _ => match last_sync with
              | inl e => inl e
              | inr v => inr (v, "cli-python")
              end)
    (fun _ => current)
    (version_parse w) (path_exists w) (load_yaml_file w) (git_repo_error w)
    (dirty_at_inspection w) (listdir w) (choose_domain_error w)
    (copy_tree_error w) (dirty_after_regeneration w) (read_config w)
    (checkout_new_ok w) (checkout_ok w) (git_add_error w) (index_diff_head w)
    (popen_error w) (popen_returncode w) (remote_origin_error w) (git_push_error w)
    (open_pulls w) (post_pull w).

(** A listing in which the second deletion fails. *)
Definition listing_with_failure : list dir_entry :=
  [mkDirEntry ".git" IsDir None;
   mkDirEntry "README.md" IsFile None;
   mkDirEntry "docs" IsDir (Some (OtherException "PermissionError"));
   mkDirEntry "src" IsDir None].

(** * Properties *)

(** ** The monad *)

Lemma bind_Ret_inv {A B} (c : M A) (k : A -> M B) s b s' :
  bind c k s = (Ret b, s') ->
  exists a s1, c s = (Ret a, s1) /\ k a s1 = (Ret b, s').
Proof.
  unfold bind. destruct (c s) as [[a | e] s1]; intros H.
  - exists a, s1. split; [reflexivity | exact H].
  - discriminate H.
Qed.

Lemma bind_Ret {A B} (c : M A) (k : A -> M B) s a s1 :
  c s = (Ret a, s1) -> bind c k s = k a s1.
Proof. unfold bind. intros ->. reflexivity. Qed.

Lemma bind_Raise {A B} (c : M A) (k : A -> M B) s e s1 :
  c s = (Raise e, s1) -> bind c k s = (Raise e, s1).
Proof. unfold bind. intros ->. reflexivity. Qed.

(** Unfolds the monad's operations, leaving the oracles and the data. *)
Ltac monad_unfold :=
  cbv beta iota zeta delta
    [bind try_except ret raise sys_exit of_sum of_error get_self modify_self
     emit get_active_branch set_active_branch dict_lookup parser_items
     git_checkout git_checkout_new popen].

(** ** fnmatch *)

Example fnmatch_star_crosses_slash : fnmatchcase "b/c.md" "*.md" = true.
Proof. reflexivity. Qed.

Example fnmatch_class :
  map (fnmatchcase "a1.txt") ["a[0-9].*"; "a[!0-9].*"; "?1.t[wx]t"; "a1.txt[" ]
  = [true; false; true; false].
Proof. reflexivity. Qed.

Example fnmatch_unclosed_bracket : fnmatchcase "a[1" "a[?" = true.
Proof. reflexivity. Qed.

(** [?] and bracket expressions stand for one code point, not one byte. *)
Example fnmatch_code_points :
  code_points "日.md" = [26085; 46; 109; 100]%N /\
  map (fnmatchcase "日.md") ["?.md"; "??.md"; "[!a].md"; "*.md"]
  = [true; false; true; true] /\
  map (fun name => fnmatchcase name "[а-я].txt") ["ж.txt"; "z.txt"]
  = [true; false].
Proof. repeat split; vm_compute; reflexivity. Qed.

(** ** Version Comparator *)

Lemma version_flags_cases (a b : Version) :
  version_flags a b = (true, false, false) \/
  version_flags a b = (false, true, false) \/
  version_flags a b = (false, false, true) \/
  version_flags a b = (false, false, false).
Proof.
  unfold version_flags.
  destruct (major a <? major b)%N; [now left |].
  destruct (minor a <? minor b)%N; [now right; left |].
  destruct (micro a <? micro b)%N; [now right; right; left | now right; right; right].
Qed.

(** C2, as stated, fails: the major components of 2.0.0 and 1.5.0 are
    unequal, and the comparison yields a minor update, not a major one. *)
Lemma version_flags_unequal_major_not_major :
  major v2_0_0 <> major v1_5_0 /\
  version_flags v2_0_0 v1_5_0 = (false, true, false) /\
  version_flags v2_0_0 v1_5_0 <> tier_flags MajorTier.
Proof.
  split; [discriminate |]. split; [reflexivity | discriminate].
Qed.

(** C2 (amended): the comparison looks for an increase, most significant
    component first.  A larger major component yields major-update; with
    equal majors a larger minor yields minor-update; with equal majors and
    minors a larger micro yields patch-update; equal triples yield no
    update. *)
Theorem version_flags_first_increase (a b : Version) :
  ((major a < major b)%N -> version_flags a b = tier_flags MajorTier) /\
  (major a = major b -> (minor a < minor b)%N ->
   version_flags a b = tier_flags MinorTier) /\
  (major a = major b -> minor a = minor b -> (micro a < micro b)%N ->
   version_flags a b = tier_flags PatchTier) /\
  (major a = major b -> minor a = minor b -> micro a = micro b ->
   version_flags a b = (false, false, false)).
Proof.
  unfold version_flags. split; [| split; [| split]].
  - intros H. apply N.ltb_lt in H. now rewrite H.
  - intros Hma Hmi. rewrite Hma, N.ltb_irrefl.
    apply N.ltb_lt in Hmi. now rewrite Hmi.
  - intros Hma Hmi Hmc. rewrite Hma, Hmi, !N.ltb_irrefl.
    apply N.ltb_lt in Hmc. now rewrite Hmc.
  - intros Hma Hmi Hmc. now rewrite Hma, Hmi, Hmc, !N.ltb_irrefl.
Qed.

Lemma version_flags_first_increase_witness :
  version_flags v1_2_3 v2_0_0 = (true, false, false) /\
  version_flags v1_2_3 v1_3_0 = (false, true, false) /\
  version_flags v1_2_3 v1_2_4 = (false, false, true) /\
  version_flags v1_2_3 v1_2_3 = (false, false, false).
Proof.
  split; [| split; [| split]].
  - apply (proj1 (version_flags_first_increase v1_2_3 v2_0_0)). reflexivity.
  - apply (proj1 (proj2 (version_flags_first_increase v1_2_3 v1_3_0)));
      reflexivity.
  - apply (proj1 (proj2 (proj2 (version_flags_first_increase v1_2_3 v1_2_4))));
      reflexivity.
  - apply (proj2 (proj2 (proj2 (version_flags_first_increase v1_2_3 v1_2_3))));
      reflexivity.
Defined.

(** When the repository, the metadata and both version strings are in order,
    the comparator returns, and its flags are those of [version_flags]. *)
Lemma has_template_version_changed_returns w dir s last_text handle cur_text a b :
  git_repo_error w dir = None ->
  checkout_ok w "development" = true ->
  load_project_template_version_and_handle w dir = inr (last_text, handle) ->
  version_parse w last_text = inr a ->
  load_ct_template_version w handle = inr cur_text ->
  version_parse w cur_text = inr b ->
  has_template_version_changed w dir s =
    (Ret (version_flags a b, version_str a, version_str b),
     mkSt (self s) "development" (trace s ++ [GitCheckout "development"])).
Proof.
  intros Hrepo Hco Hload Ha Hcur Hb.
  unfold has_template_version_changed, bind, try_except, git_checkout, bind,
    emit, set_active_branch, of_error, of_sum, ret.
  rewrite Hrepo. simpl. rewrite Hco. simpl.
  rewrite Hload. simpl. rewrite Ha. simpl. rewrite Hcur, Hb. reflexivity.
Qed.

(** C6: whatever the two version strings are, at most one of the three
    booleans the comparator returns is true; and all three can be false. *)
Theorem at_most_one_update_flag :
  (forall a b : Version, flags_set (version_flags a b) <= 1) /\
  (forall (w : World) (dir : string) (s : St),
      match fst (has_template_version_changed w dir s) with
      | Ret (flags, _, _) => flags_set flags <= 1
      | Raise _ => True
      end) /\
  (exists a b : Version, version_flags a b = (false, false, false)).
Proof.
  assert (Hpure : forall a b : Version, flags_set (version_flags a b) <= 1).
  { intros a b.
    destruct (version_flags_cases a b) as [H | [H | [H | H]]];
      rewrite H; simpl; lia. }
  split; [exact Hpure |]. split.
  - intros w dir s.
    unfold has_template_version_changed, bind.
    repeat match goal with
           | |- context [match ?c ?s with _ => _ end] =>
               destruct (c s) as [[? | ?] ?]; simpl; try exact I
           | |- context [match ?c with _ => _ end] =>
               destruct c as [[? | ?] ?]; simpl; try exact I
           end.
    apply Hpure.
  - exists v1_2_3, v1_2_3. reflexivity.
Qed.

(** ** Policy Filter: check_sync_level *)

Lemma valid_level_inv (lvl : string) :
  valid_level lvl = true -> lvl = "major" \/ lvl = "minor" \/ lvl = "patch".
Proof.
  unfold valid_level. simpl. rewrite !orb_true_iff, !String.eqb_eq.
  intros [H | [H | [H | H]]]; auto. discriminate H.
Qed.

(** With a well-formed [sync_level] section the check returns, leaves the
    state alone, and answers by the flags, patch first. *)
Lemma check_sync_level_well_formed w s key lvl :
  config_items (read_config w (cfg_path (self s))) "sync_level" = Some [(key, lvl)] ->
  str_contains "ct_sync_level" key = true ->
  valid_level lvl = true ->
  check_sync_level w s =
    (Ret (if patch_update (self s)
          then negb (lvl =? "minor") && negb (lvl =? "major")
          else if minor_update (self s) then negb (lvl =? "major") else true),
     s).
Proof.
  intros Hcfg Hkey Hlvl.
  unfold check_sync_level, try_except, bind, parser_items, get_self, bind.
  rewrite Hcfg. unfold ret. rewrite Hkey, Hlvl. simpl.
  destruct (patch_update (self s)); [reflexivity |].
  destruct (minor_update (self s)); reflexivity.
Qed.

(** C3: under a valid policy, a patch-tier update passes iff the policy is
    patch, a minor-tier update iff it is patch or minor, and a major-tier
    update under every policy. *)
Theorem check_sync_level_gates_by_tier w s key lvl (t : tier) :
  config_items (read_config w (cfg_path (self s))) "sync_level" = Some [(key, lvl)] ->
  str_contains "ct_sync_level" key = true ->
  valid_level lvl = true ->
  update_flags (self s) = tier_flags t ->
  exists b : bool,
    check_sync_level w s = (Ret b, s) /\
    match t with
    | PatchTier => b = true <-> lvl = "patch"
    | MinorTier => b = true <-> (lvl = "patch" \/ lvl = "minor")
    | MajorTier => b = true
    end.
Proof.
  intros Hcfg Hkey Hlvl Hflags.
  rewrite (check_sync_level_well_formed w s key lvl Hcfg Hkey Hlvl).
  eexists. split; [reflexivity |].
  pose proof (f_equal snd Hflags) as Hpa.
  pose proof (f_equal (fun f => snd (fst f)) Hflags) as Hmi.
  simpl in Hpa, Hmi. rewrite Hpa, Hmi.
  destruct (valid_level_inv lvl Hlvl) as [-> | [-> | ->]];
    destruct t; simpl; try reflexivity;
    (split; [intros H; try discriminate H; auto
            | intros H; try reflexivity; try discriminate H;
              destruct H as [H | H]; discriminate H]).
Qed.

(** C9: with none of the three flags set, every valid policy lets the pull
    request through. *)
Theorem check_sync_level_no_update_allows w s key lvl :
  config_items (read_config w (cfg_path (self s))) "sync_level" = Some [(key, lvl)] ->
  str_contains "ct_sync_level" key = true ->
  valid_level lvl = true ->
  update_flags (self s) = (false, false, false) ->
  check_sync_level w s = (Ret true, s).
Proof.
  intros Hcfg Hkey Hlvl Hflags.
  rewrite (check_sync_level_well_formed w s key lvl Hcfg Hkey Hlvl).
  pose proof (f_equal snd Hflags) as Hpa.
  pose proof (f_equal (fun f => snd (fst f)) Hflags) as Hmi.
  simpl in Hpa, Hmi. rewrite Hpa, Hmi. reflexivity.
Qed.

(** C7: a missing [sync_level] section, a section without exactly one entry,
    or a value other than patch, minor and major ends the process with exit
    status 1; the check answers only for a well-formed section. *)
Theorem check_sync_level_misconfigured_exits w s :
  let section := config_items (read_config w (cfg_path (self s))) "sync_level" in
  (section = None \/
   (exists items, section = Some items /\ length items <> 1) \/
   (exists key lvl, section = Some [(key, lvl)] /\ valid_level lvl = false) ->
   check_sync_level w s = (Raise (SystemExit 1), s) /\ (1 <> 0)%Z) /\
  (forall (b : bool) (s' : St),
      check_sync_level w s = (Ret b, s') ->
      exists key lvl,
        section = Some [(key, lvl)] /\ valid_level lvl = true /\
        str_contains "ct_sync_level" key = true).
Proof.
  intros section. subst section.
  unfold check_sync_level, try_except, bind, parser_items, get_self, bind.
  split.
  - intros H. split; [| discriminate].
    destruct H as [H | [(items & H & Hlen) | (key & lvl & H & Hlvl)]];
      rewrite H; simpl.
    + reflexivity.
    + destruct items as [| [k v] [| ? ?]]; simpl in *;
        [reflexivity | contradiction Hlen; reflexivity | reflexivity].
    + rewrite Hlvl, orb_true_r. reflexivity.
  - intros b s'.
    destruct (config_items _ _) as [[| [key lvl] [| ? ?]] |]; simpl;
      try discriminate.
    destruct (str_contains "ct_sync_level" key) eqn:Hkey;
      destruct (valid_level lvl) eqn:Hlvl; simpl; try discriminate.
    intros _. exists key, lvl. auto.
Qed.

(** ** Sync Orchestrator: the commit step *)

Lemma get_blacklisted_sync_globs_section w s items :
  config_items (read_config w (cfg_path (self s))) "sync_files_blacklisted" = Some items ->
  get_blacklisted_sync_globs w s = (Ret (map snd items), s).
Proof.
  intros H. unfold get_blacklisted_sync_globs. monad_unfold. now rewrite H.
Qed.

(** A clean working copy: nothing is issued, nothing changes. *)
Lemma commit_template_changes_clean w s :
  dirty_after_regeneration w = false ->
  commit_template_changes w s = (Ret false, s).
Proof. intros H. unfold commit_template_changes. now rewrite H. Qed.

Lemma with_returncode_same (w : World) : with_returncode w (popen_returncode w) = w.
Proof. destruct w. reflexivity. Qed.

(** A dirty working copy, with staging, the blacklist section and the launch
    of the two subprocesses in order: three commands are issued (stage,
    commit of the files to commit, stash) and [made_changes] is set. *)
Lemma commit_template_changes_dirty w s items :
  dirty_after_regeneration w = true ->
  git_add_error w = None ->
  config_items (read_config w (cfg_path (self s))) "sync_files_blacklisted" = Some items ->
  popen_error w (commit_argv (index_diff_head w) (map snd items)) = None ->
  popen_error w ["git"; "stash"] = None ->
  commit_template_changes w s =
    (Ret true,
     mkSt (set_made_changes true (self s)) (active_branch s)
          (trace s ++ [GitAddAll;
                       Popen (commit_argv (index_diff_head w) (map snd items));
                       Popen ["git"; "stash"]])).
Proof.
  intros Hdirty Hadd Hcfg Hcommit Hstash.
  unfold commit_template_changes, get_blacklisted_sync_globs.
  rewrite Hdirty. cbn [negb]. monad_unfold. rewrite Hadd. cbn [self].
  cbv beta iota. rewrite Hcfg. cbv beta iota.
  fold (commit_argv (index_diff_head w) (map snd items)).
  rewrite Hcommit. cbv beta iota. rewrite Hstash.
  cbn [self active_branch trace is_Exception].
  rewrite <- !app_assoc. reflexivity.
Qed.

(** ** Policy Filter: the split of the changed files *)

Lemma str_in_In (file : string) (files : list string) :
  str_in file files = true <-> In file files.
Proof.
  unfold str_in. rewrite existsb_exists. split.
  - intros (x & Hx & Heq). apply String.eqb_eq in Heq. now subst.
  - intros H. exists file. split; [exact H | apply String.eqb_refl].
Qed.

Lemma fold_left_app_flat_map {A B} (g : A -> list B) (xs : list A) (acc : list B) :
  fold_left (fun acc x => acc ++ g x)%list xs acc = (acc ++ flat_map g xs)%list.
Proof.
  revert acc. induction xs as [| x xs IH]; intros acc; simpl.
  - now rewrite app_nil_r.
  - now rewrite IH, app_assoc.
Qed.

(** The loop lists the matches glob by glob. *)
Lemma blacklisted_changed_files_flat_map (changed_files globs : list string) :
  blacklisted_changed_files changed_files globs
  = flat_map (fnmatch_filter changed_files) globs.
Proof.
  unfold blacklisted_changed_files.
  now rewrite (fold_left_app_flat_map (fnmatch_filter changed_files)).
Qed.

Lemma In_blacklisted_changed_files (changed_files globs : list string) (file : string) :
  In file (blacklisted_changed_files changed_files globs) <->
  In file changed_files /\ exists g, In g globs /\ fnmatchcase file g = true.
Proof.
  rewrite blacklisted_changed_files_flat_map, in_flat_map.
  unfold fnmatch_filter. split.
  - intros (g & Hg & Hin). apply filter_In in Hin as [Hin Hm]. eauto.
  - intros (Hin & g & Hg & Hm). exists g. split; [exact Hg |].
    apply filter_In. auto.
Qed.


(** A changed file is blacklisted exactly when some glob matches it. *)
Lemma str_in_blacklisted (changed_files globs : list string) (file : string) :
  In file changed_files ->
  str_in file (blacklisted_changed_files changed_files globs)
  = existsb (fnmatchcase file) globs.
Proof.
  intros Hin. apply eq_true_iff_eq.
  rewrite str_in_In, In_blacklisted_changed_files, existsb_exists.
  split; [intros (_ & g & Hg & Hm); eauto | intros (g & Hg & Hm); eauto].
Qed.

Lemma files_to_commit_filter (changed_files globs : list string) :
  files_to_commit changed_files globs
  = filter (fun file => negb (existsb (fnmatchcase file) globs)) changed_files.
Proof.
  unfold files_to_commit. apply filter_ext_in. intros file Hin.
  now rewrite str_in_blacklisted.
Qed.


(** A file that several globs match is listed once for each of them. *)
Example blacklisted_changed_files_repeats :
  blacklisted_changed_files ["a.md"] ["*.md"; "a.*"] = ["a.md"; "a.md"].
Proof. reflexivity. Qed.



(** ** Sync Orchestrator: committing *)

(** C10 (amended): the method never consults the exit status of a
    subprocess, so it behaves the same whatever the commit and the stash
    return; once staging has succeeded, the blacklist section has been read
    and the two subprocesses have been started, it sets [made_changes] and
    returns [True]. *)
Theorem commit_template_changes_ignores_exit_status w s :
  (forall returncode,
      commit_template_changes (with_returncode w returncode) s
      = commit_template_changes w s) /\
  (forall items,
      dirty_after_regeneration w = true ->
      git_add_error w = None ->
      config_items (read_config w (cfg_path (self s))) "sync_files_blacklisted"
      = Some items ->
      popen_error w (commit_argv (index_diff_head w) (map snd items)) = None ->
      popen_error w ["git"; "stash"] = None ->
      fst (commit_template_changes w s) = Ret true /\
      made_changes (self (snd (commit_template_changes w s))) = true).
Proof.
  split.
  - intros returncode. reflexivity.
  - intros items Hdirty Hadd Hcfg Hcommit Hstash.
    rewrite (commit_template_changes_dirty w s items Hdirty Hadd Hcfg Hcommit Hstash).
    split; reflexivity.
Qed.

(** ** Sync Orchestrator: the pull request *)

Lemma prefix_app (a b : string) : prefix a (a ++ b) = true.
Proof.
  induction a as [| c a IH]; simpl.
  - now destruct b.
  - destruct (ascii_dec c c) as [_ | Hne]; [exact IH | now contradiction Hne].
Qed.

Lemma str_contains_prefix (a b : string) : prefix a b = true -> str_contains a b = true.
Proof. intros H. destruct b; cbn [str_contains]; now rewrite H. Qed.

Lemma str_contains_app_r (a p b : string) :
  str_contains a b = true -> str_contains a (p ++ b) = true.
Proof.
  intros H. induction p as [| c p IH]; [exact H |].
  cbn [append str_contains]. rewrite IH. apply orb_true_r.
Qed.

Lemma prefix_inv (a b : string) :
  prefix a b = true -> exists rest, b = a ++ rest.
Proof.
  revert b. induction a as [| c a IH]; intros b H.
  - now exists b.
  - destruct b as [| d b]; cbn in H; [discriminate |].
    destruct (ascii_dec c d) as [<- | _]; [| discriminate].
    destruct (IH b H) as [rest ->]. now exists rest.
Qed.

(** [needle in haystack] holds exactly when the haystack is some text, the
    needle, and some text. *)
Lemma str_contains_iff (needle haystack : string) :
  str_contains needle haystack = true <->
  exists before after, haystack = before ++ needle ++ after.
Proof.
  split.
  - induction haystack as [| c h IH]; cbn [str_contains]; intros H.
    + rewrite orb_false_r in H. apply prefix_inv in H as [rest ->].
      now exists "", rest.
    + apply orb_true_iff in H as [H | H].
      * apply prefix_inv in H as [rest ->]. now exists "", rest.
      * destruct (IH H) as (before & after & ->).
        now exists (String c before), after.
  - intros (before & after & ->).
    apply str_contains_app_r, str_contains_prefix, prefix_app.
Qed.

(** A title that starts with the sync words contains them. *)
Lemma has_sync_title_prefix_carries (pull_request : dict) :
  has_sync_title_prefix pull_request = true ->
  carries_sync_title pull_request = true.
Proof.
  unfold has_sync_title_prefix, carries_sync_title.
  destruct (dict_get pull_request "title") as [[| ? | t] |]; try discriminate.
  apply str_contains_prefix.
Qed.

(** The title of a new sync pull request contains the new template version
    and the opening words by which an open one is recognised. *)
Lemma sync_pr_title_embeds (o : TemplateSync) :
  str_contains (new_template_version o) (sync_pr_title o) = true /\
  str_contains sync_pr_title_prefix (sync_pr_title o) = true.
Proof.
  unfold sync_pr_title. split.
  - apply str_contains_app_r.
    apply (str_contains_app_r _ " "), str_contains_prefix, prefix_app.
  - apply str_contains_prefix, prefix_app.
Qed.

(** Over well-formed entries the loop of [check_pull_request_exists] returns
    whether some title carries the opening words. *)
Lemma sync_pr_among_titles (query_data : list dict) (s : St) :
  Forall has_title query_data ->
  sync_pr_among query_data s = (Ret (existsb carries_sync_title query_data), s).
Proof.
  induction 1 as [| pull_request rest [t Ht] _ IH]; simpl; [reflexivity |].
  unfold carries_sync_title. monad_unfold. rewrite Ht. cbv beta iota.
  destruct (str_contains sync_pr_title_prefix t); [reflexivity | exact IH].
Qed.

(** The opening words count wherever they stand in the title. *)
Example carries_sync_title_anywhere :
  carries_sync_title
    [("title", PStr "WIP: Important cookietemple template update 1.2.0 released!")]
  = true /\
  carries_sync_title [("title", PStr "Important template update")] = false.
Proof. split; vm_compute; reflexivity. Qed.

(** Whatever GitHub answers, [submit_pull_request] issues exactly the POST. *)
Lemma submit_pull_request_trace w title body s slug :
  dict_get (dot_cookietemple (self s)) "project_slug" = Some slug ->
  trace (snd (submit_pull_request w title body s))
  = (trace s ++ [HttpPostPull (repo_owner (self s)) slug
                   (mkPrContent title body true "TEMPLATE" "development")
                   (gh_username (self s)) (token (self s))])%list.
Proof.
  intros Hslug. unfold submit_pull_request. monad_unfold. rewrite Hslug.
  cbv beta iota.
  destruct (post_pull w) as [e | r]; [reflexivity |]. cbv beta iota.
  destruct (content_json r) as [e | data]; cbv beta iota.
  - destruct (is_RequestException e); [| reflexivity].
    destruct (status_code r =? 201)%Z; reflexivity.
  - destruct (status_code r =? 201)%Z; reflexivity.
Qed.

(** The test of [check_pull_request_exists], spelt out. *)
Lemma carries_sync_title_iff :
  (forall pull_request,
      carries_sync_title pull_request = true <->
      exists t before after,
        dict_get pull_request "title" = Some (PStr t) /\
        t = before ++ sync_pr_title_prefix ++ after).
Proof.
  intros pull_request. unfold carries_sync_title.
  destruct (dict_get pull_request "title") as [[| b | t] |].
  - split; [discriminate | intros (t' & ? & ? & Ht & _); discriminate Ht].
  - split; [discriminate | intros (t' & ? & ? & Ht & _); discriminate Ht].
  - rewrite str_contains_iff. split.
    + intros (before & after & Heq). exists t, before, after. now split.
    + intros (t' & before & after & Ht & Heq). injection Ht as Ht. subst t'.
      now exists before, after.
  - split; [discriminate | intros (t' & ? & ? & Ht & _); discriminate Ht].
Qed.

(** C8 (amended): [make_pull_request] asks for the open pull requests and
    then submits a new one exactly when none of them has a title that
    contains the sync words, wherever in the title they stand; when one
    does, nothing further is issued and the method returns; the title of a
    submitted pull request contains the new template version. *)
Theorem make_pull_request_submits_iff_no_open_sync_pr
    w s (is_orga orga slug : pyval) (query_data : list dict) :
  dict_get (dot_cookietemple (self s)) "is_github_orga" = Some is_orga ->
  (truthy is_orga = true ->
   dict_get (dot_cookietemple (self s)) "github_orga" = Some orga) ->
  dict_get (dot_cookietemple (self s)) "project_slug" = Some slug ->
  open_pulls w = inr query_data ->
  Forall has_title query_data ->
  let owner := pull_owner (self s) is_orga orga in
  let query := HttpGetOpenPulls owner slug (token (self s)) in
  let post :=
    HttpPostPull owner slug
      (mkPrContent (sync_pr_title (self s)) pr_body_text true "TEMPLATE" "development")
      (gh_username (self s)) (token (self s)) in
  (existsb carries_sync_title query_data = false <->
   trace (snd (make_pull_request w s)) = (trace s ++ [query; post])%list) /\
  (existsb carries_sync_title query_data = true ->
   trace (snd (make_pull_request w s)) = (trace s ++ [query])%list /\
   fst (make_pull_request w s) = Ret tt) /\
  str_contains (new_template_version (self s)) (sync_pr_title (self s)) = true /\
  (forall pull_request,
      carries_sync_title pull_request = true <->
      exists t before after,
        dict_get pull_request "title" = Some (PStr t) /\
        t = before ++ sync_pr_title_prefix ++ after).
Proof.
  intros His Horga Hslug Hpulls Htitles owner query post.
  assert (Hrun :
    make_pull_request w s =
      let s1 := mkSt (set_repo_owner owner (self s)) (active_branch s)
                     (trace s ++ [query]) in
      if existsb carries_sync_title query_data then (Ret tt, s1)
      else submit_pull_request w (sync_pr_title (self s)) pr_body_text s1).
  { unfold make_pull_request, check_pull_request_exists. monad_unfold.
    rewrite His. cbv beta iota.
    subst owner query post. unfold pull_owner.
    destruct (truthy is_orga) eqn:Horg.
    - rewrite (Horga eq_refl). cbv beta iota.
      cbn [self dot_cookietemple set_repo_owner repo_owner token trace active_branch].
      rewrite Hslug. cbv beta iota. rewrite Hpulls. cbv beta iota.
      rewrite sync_pr_among_titles by exact Htitles.
      cbn [self set_repo_owner new_template_version].
      fold (sync_pr_title (self s)).
      destruct (existsb carries_sync_title query_data); reflexivity.
    - cbv beta iota. rewrite Hslug. cbv beta iota. rewrite Hpulls. cbv beta iota.
      rewrite sync_pr_among_titles by exact Htitles.
      fold (sync_pr_title (self s)).
      destruct (existsb carries_sync_title query_data); cbn [negb]; cbv beta iota.
      + destruct s as [[] ? ?]; reflexivity.
      + destruct s as [[] ? ?]; reflexivity. }
  rewrite Hrun. cbv zeta.
  assert (Hpost :
    trace (snd (submit_pull_request w (sync_pr_title (self s)) pr_body_text
                  (mkSt (set_repo_owner owner (self s)) (active_branch s)
                        (trace s ++ [query]))))
    = (trace s ++ [query; post])%list).
  { rewrite (submit_pull_request_trace w _ _ _ slug) by exact Hslug.
    cbn [self trace set_repo_owner repo_owner gh_username token].
    now rewrite <- app_assoc. }
  split; [| split; [| split; [apply sync_pr_title_embeds |]]].
  - destruct (existsb carries_sync_title query_data).
    + split; [discriminate |]. cbn [snd trace]. intros H.
      apply app_inv_head in H. discriminate H.
    + split; [intros _; exact Hpost | reflexivity].
  - intros ->. split; reflexivity.
  - apply carries_sync_title_iff.
Qed.

(** C8, as stated, fails: the only open pull request has a title that does
    not start with the sync words (they come after "WIP: "), so none carries
    them as a prefix; yet no new pull request is submitted. *)
Lemma make_pull_request_skips_without_title_prefix :
  let w := world_open_wip_pr in
  let r := make_pull_request w (inspected_session w) in
  open_pulls w
  = inr [[("title",
           PStr "WIP: Important cookietemple template update 1.2.0 released!")]] /\
  existsb has_sync_title_prefix
    [[("title",
       PStr "WIP: Important cookietemple template update 1.2.0 released!")]]
  = false /\
  fst r = Ret tt /\
  trace (snd r) = [HttpGetOpenPulls (PStr "alice") (PStr "demo") "secret"] /\
  (forall e, In e (trace (snd r)) -> is_post e = false).
Proof.
  cbv zeta. repeat (split; [vm_compute; reflexivity |]).
  vm_compute. intros e [<- | []]. reflexivity.
Qed.

(** ** Sync Orchestrator: what the steps leave untouched *)

Section Preservation.

Variable P : St -> Prop.

Lemma preserves_ret {A} (a : A) : preserves P (ret a).
Proof. intros s H. exact H. Qed.

Lemma preserves_raise {A} (e : exn) : preserves P (@raise A e).
Proof. intros s H. exact H. Qed.

Lemma preserves_sys_exit {A} (code : Z) : preserves P (@sys_exit A code).
Proof. apply preserves_raise. Qed.

Lemma preserves_bind {A B} (c : M A) (k : A -> M B) :
  preserves P c -> (forall a, preserves P (k a)) -> preserves P (bind c k).
Proof.
  intros Hc Hk s H. unfold bind. specialize (Hc s H).
  destruct (c s) as [[a | e] s1]; simpl in Hc; [apply Hk, Hc | exact Hc].
Qed.

Lemma preserves_try_except {A} (body : M A) catches handler :
  preserves P body -> (forall e, preserves P (handler e)) ->
  preserves P (try_except body catches handler).
Proof.
  intros Hb Hh s H. unfold try_except. specialize (Hb s H).
  destruct (body s) as [[a | e] s1]; simpl in Hb; [exact Hb |].
  destruct (catches e); [apply Hh, Hb | exact Hb].
Qed.

Lemma preserves_of_sum {A} (x : exn + A) : preserves P (of_sum x).
Proof. destruct x; [apply preserves_raise | apply preserves_ret]. Qed.

Lemma preserves_of_error (x : option exn) : preserves P (of_error x).
Proof. destruct x; [apply preserves_raise | apply preserves_ret]. Qed.

Lemma preserves_get_self : preserves P get_self.
Proof. intros s H. exact H. Qed.

Lemma preserves_get_active_branch : preserves P get_active_branch.
Proof. intros s H. exact H. Qed.

Lemma preserves_dict_lookup d k : preserves P (dict_lookup d k).
Proof.
  unfold dict_lookup. destruct (dict_get d k);
    [apply preserves_ret | apply preserves_raise].
Qed.

(** What [P] has to withstand: a change of branch, the events in [ok], and
    assignments to the attributes other than [original_branch] and
    [made_changes]. *)
Variable ok : event -> bool.
Hypothesis P_branch : forall b, preserves P (set_active_branch b).
Hypothesis P_emit : forall e, ok e = true -> preserves P (emit e).
Hypothesis P_from_branch : forall v, preserves P (modify_self (set_from_branch v)).
Hypothesis P_repo_owner : forall v, preserves P (modify_self (set_repo_owner v)).
Hypothesis P_returned_data :
  forall v, preserves P (modify_self (set_gh_pr_returned_data v)).
Hypothesis P_made_changes : preserves P (modify_self (set_made_changes true)).
Hypothesis P_dot_cookietemple :
  forall v, preserves P (modify_self (set_dot_cookietemple v)).
Hypothesis P_original_branch :
  forall v, preserves P (modify_self (set_original_branch v)).

Hypothesis ok_checkout : forall ref, ok (GitCheckout ref) = true.
Hypothesis ok_checkout_new : forall sp b, ok (GitCheckoutNew sp b) = true.
Hypothesis ok_unlink : forall p, ok (Unlink p) = true.
Hypothesis ok_rmtree : forall p, ok (Rmtree p) = true.
Hypothesis ok_choose_domain : forall d, ok (ChooseDomain d) = true.
Hypothesis ok_copy_tree : forall sl d, ok (CopyTree sl d) = true.
Hypothesis ok_add : ok GitAddAll = true.
Hypothesis ok_popen : forall argv, ok (Popen argv) = true.
Hypothesis ok_tracking : forall r, ok (SetTrackingBranch r) = true.
Hypothesis ok_push : ok GitPushForce = true.
Hypothesis ok_get : forall o sl t, ok (HttpGetOpenPulls o sl t) = true.
Hypothesis ok_post : forall o sl b u t, ok (HttpPostPull o sl b u t) = true.

Variable w : World.

Ltac preserves_step :=
  first
    [ apply preserves_ret | apply preserves_raise | apply preserves_sys_exit
    | apply preserves_of_sum | apply preserves_of_error
    | apply preserves_get_self | apply preserves_get_active_branch
    | apply preserves_dict_lookup
    | apply preserves_bind; [| intros ?]
    | apply preserves_try_except; [| intros ?]
    | match goal with
      | |- preserves _ (if ?b then _ else _) => destruct b
      | |- preserves _ (match ?x with _ => _ end) => destruct x
      end ].

Lemma preserves_git_checkout ref : preserves P (git_checkout w ref).
Proof. unfold git_checkout. repeat preserves_step; auto. Qed.

Lemma preserves_git_checkout_new sp b : preserves P (git_checkout_new w sp b).
Proof. unfold git_checkout_new. repeat preserves_step; auto. Qed.

Lemma preserves_parser_items section : preserves P (parser_items w section).
Proof. unfold parser_items. repeat preserves_step. Qed.

Lemma preserves_inspect_sync_dir : preserves P (inspect_sync_dir w).
Proof. unfold inspect_sync_dir. repeat preserves_step; auto. Qed.

Lemma preserves_checkout_template_branch : preserves P (checkout_template_branch w).
Proof.
  unfold checkout_template_branch.
  repeat first [apply preserves_git_checkout | apply preserves_git_checkout_new
               | preserves_step]; auto.
Qed.

Lemma preserves_delete_entries dir entries : preserves P (delete_entries dir entries).
Proof.
  induction entries as [| e rest IH]; simpl; [apply preserves_ret |].
  destruct (entry_name e =? ".git"); [exact IH |].
  apply preserves_bind; [| intros _; exact IH].
  repeat preserves_step; auto.
Qed.

Lemma preserves_delete_template_branch_files :
  preserves P (delete_template_branch_files w).
Proof.
  unfold delete_template_branch_files.
  apply preserves_bind; [apply preserves_get_self | intros o].
  apply preserves_delete_entries.
Qed.

Lemma preserves_make_template_project : preserves P (make_template_project w).
Proof. unfold make_template_project. repeat preserves_step; auto. Qed.

Lemma preserves_commit_template_changes : preserves P (commit_template_changes w).
Proof.
  unfold commit_template_changes, get_blacklisted_sync_globs, popen.
  repeat first [apply preserves_parser_items | preserves_step]; auto.
Qed.

Lemma preserves_push_template_branch : preserves P (push_template_branch w).
Proof. unfold push_template_branch. repeat preserves_step; auto. Qed.

Lemma preserves_sync_pr_among query_data : preserves P (sync_pr_among query_data).
Proof.
  induction query_data as [| pr rest IH]; simpl; [apply preserves_ret |].
  apply preserves_bind; [apply preserves_dict_lookup | intros [| b | t]];
    try apply preserves_raise.
  destruct (str_contains sync_pr_title_prefix t); [apply preserves_ret | exact IH].
Qed.

Lemma preserves_make_pull_request : preserves P (make_pull_request w).
Proof.
  unfold make_pull_request, check_pull_request_exists, submit_pull_request.
  repeat first [apply preserves_sync_pr_among | preserves_step]; auto.
Qed.

Lemma preserves_reset_target_dir : preserves P (reset_target_dir w).
Proof.
  unfold reset_target_dir.
  repeat first [apply preserves_git_checkout | preserves_step].
Qed.

End Preservation.

(** ** Sync Orchestrator: the phases of sync *)

Lemma sync_phases w s :
  sync w s = bind (sync_until_commit w) (fun _ => sync_after_commit w) s.
Proof.
  unfold sync, sync_until_commit, sync_until_regenerated, sync_after_commit,
    push_and_pr, bind.
  destruct (inspect_sync_dir w s) as [[[] | e] s1]; [| reflexivity].
  destruct (checkout_template_branch w s1) as [[[] | e] s2]; [| reflexivity].
  destruct (delete_template_branch_files w s2) as [[[] | e] s3]; [| reflexivity].
  destruct (make_template_project w s3) as [[[] | e] s4]; [| reflexivity].
  destruct (commit_template_changes w s4) as [[b | e] s5]; reflexivity.
Qed.

Lemma quiet_emit e :
  negb (commits_pushes_or_requests e) = true -> preserves quiet (emit e).
Proof.
  intros He s [Hm Ht]. apply negb_true_iff in He. split; [exact Hm |].
  cbn [emit snd trace]. apply Forall_app. split; [exact Ht | now constructor].
Qed.

Lemma quiet_sync_until_regenerated w : preserves quiet (sync_until_regenerated w).
Proof.
  assert (Hbranch : forall b, preserves quiet (set_active_branch b))
    by (intros b s H; exact H).
  unfold sync_until_regenerated.
  repeat (apply preserves_bind; [| intros _]).
  - apply preserves_inspect_sync_dir; intros v s H; exact H.
  - apply (preserves_checkout_template_branch quiet
             (fun e => negb (commits_pushes_or_requests e)));
      auto using quiet_emit.
    intros v s H; exact H.
  - apply (preserves_delete_template_branch_files quiet
             (fun e => negb (commits_pushes_or_requests e)));
      auto using quiet_emit.
  - apply (preserves_make_template_project quiet
             (fun e => negb (commits_pushes_or_requests e)));
      auto using quiet_emit.
Qed.

Lemma quiet_reset_target_dir w : preserves quiet (reset_target_dir w).
Proof.
  apply (preserves_reset_target_dir quiet
           (fun e => negb (commits_pushes_or_requests e)));
    auto using quiet_emit.
  intros b s H; exact H.
Qed.

Lemma recorded_emit b e : preserves (recorded b) (emit e).
Proof. intros s H. exact H. Qed.

Lemma recorded_after_inspection w b :
  preserves (recorded b)
    (checkout_template_branch w ;;
     delete_template_branch_files w ;;
     make_template_project w ;;
     commit_template_changes w).
Proof.
  assert (Hemit : forall e, (fun _ : event => true) e = true ->
                            preserves (recorded b) (emit e))
    by (intros e _; apply recorded_emit).
  repeat (apply preserves_bind; [| intros _]).
  - apply (preserves_checkout_template_branch _ (fun _ => true)); auto;
      intros v s H; exact H.
  - apply (preserves_delete_template_branch_files _ (fun _ => true)); auto.
  - apply (preserves_make_template_project _ (fun _ => true)); auto.
  - apply (preserves_commit_template_changes _ (fun _ => true)); auto.
    intros s H; exact H.
Qed.

Lemma recorded_push_and_pr w b : preserves (recorded b) (push_and_pr w).
Proof.
  assert (Hemit : forall e, (fun _ : event => true) e = true ->
                            preserves (recorded b) (emit e))
    by (intros e _; apply recorded_emit).
  unfold push_and_pr. apply preserves_bind; [| intros _].
  - apply (preserves_push_template_branch _ (fun _ => true)); auto.
  - apply (preserves_make_pull_request _ (fun _ => true)); auto;
      intros v s H; exact H.
Qed.

Lemma recorded_reset_target_dir w b : preserves (recorded b) (reset_target_dir w).
Proof.
  apply (preserves_reset_target_dir _ (fun _ => true)); auto.
  - intros b' s H; exact H.
  - intros e _. apply recorded_emit.
Qed.

(** Inspecting records the branch that is checked out, and changes no
    branch. *)
Lemma inspect_sync_dir_records w s s1 :
  inspect_sync_dir w s = (Ret tt, s1) ->
  recorded (active_branch s) s1 /\ active_branch s1 = active_branch s.
Proof.
  unfold inspect_sync_dir, recorded. monad_unfold.
  destruct (negb (path_exists w _)); cbv beta iota; [discriminate |].
  destruct (load_yaml_file w _) as [e | dot]; cbv beta iota; [discriminate |].
  destruct (git_repo_error w _) as [e |]; cbv beta iota.
  - destruct (is_InvalidGitRepositoryError e); discriminate.
  - destruct (dirty_at_inspection w); cbv beta iota; [discriminate |].
    intros H. injection H as <-. split; reflexivity.
Qed.

Lemma sync_until_commit_after_inspection w s :
  sync_until_commit w s =
    bind (inspect_sync_dir w)
      (fun _ => checkout_template_branch w ;;
                delete_template_branch_files w ;;
                make_template_project w ;;
                commit_template_changes w) s.
Proof.
  unfold sync_until_commit, sync_until_regenerated, bind.
  destruct (inspect_sync_dir w s) as [[[] | e] s1]; [| reflexivity].
  destruct (checkout_template_branch w s1) as [[[] | e] s2]; [| reflexivity].
  destruct (delete_template_branch_files w s2) as [[[] | e] s3]; [| reflexivity].
  destruct (make_template_project w s3) as [[[] | e] s4]; reflexivity.
Qed.

Lemma sync_until_commit_records w s b s1 :
  sync_until_commit w s = (Ret b, s1) -> recorded (active_branch s) s1.
Proof.
  rewrite sync_until_commit_after_inspection. intros H.
  apply bind_Ret_inv in H as ([] & s' & Hi & H).
  apply inspect_sync_dir_records in Hi as [Hrec _].
  pose proof (recorded_after_inspection w (active_branch s) s' Hrec) as Hp.
  rewrite H in Hp. exact Hp.
Qed.

(** The restoring checkout, when the recorded branch can be checked out. *)
Lemma reset_target_dir_restores w s b :
  recorded b s ->
  checkout_ok w b = true ->
  reset_target_dir w s =
    (Ret tt, mkSt (self s) b (trace s ++ [GitCheckout b])).
Proof.
  unfold recorded, reset_target_dir. intros Hrec Hok. monad_unfold.
  rewrite Hrec. cbv beta iota. rewrite Hok. reflexivity.
Qed.

(** The restoring checkout returns only if it succeeded. *)
Lemma reset_target_dir_Ret w s b s' :
  recorded b s ->
  reset_target_dir w s = (Ret tt, s') ->
  checkout_ok w b = true.
Proof.
  unfold recorded, reset_target_dir. intros Hrec. monad_unfold.
  rewrite Hrec. cbv beta iota.
  destruct (checkout_ok w b); [reflexivity | discriminate].
Qed.

(** ** Sync Orchestrator: a clean working copy *)

(** C4: when the working copy is unchanged after regeneration,
    [commit_template_changes] returns [False] without issuing anything; a
    session that started fresh ends with [made_changes] still false and with
    nothing staged, committed, pushed or requested; and once regeneration
    has succeeded, all that is left of [sync] is the restoring checkout. *)
Theorem clean_regeneration_is_a_no_op w s0 :
  made_changes (self s0) = false ->
  trace s0 = [] ->
  dirty_after_regeneration w = false ->
  (forall s, commit_template_changes w s = (Ret false, s)) /\
  (made_changes (self (snd (sync w s0))) = false /\
   forall e, In e (trace (snd (sync w s0))) -> commits_pushes_or_requests e = false) /\
  (forall s1, sync_until_regenerated w s0 = (Ret tt, s1) ->
              sync w s0 = reset_target_dir w s1).
Proof.
  intros Hmade Htrace Hclean.
  assert (Hq0 : quiet s0) by (split; [exact Hmade | rewrite Htrace; constructor]).
  assert (Hafter : forall s, quiet s -> sync_after_commit w s = reset_target_dir w s).
  { intros s [Hm _]. unfold sync_after_commit. monad_unfold. rewrite Hm.
    cbv beta iota. destruct (reset_target_dir w s) as [[[] | e] s']; reflexivity. }
  split; [intros s; now apply commit_template_changes_clean |]. split.
  - assert (Hq : quiet (snd (sync w s0))).
    { rewrite sync_phases. unfold sync_until_commit.
      pose proof (quiet_sync_until_regenerated w s0 Hq0) as Hq1.
      unfold bind at 1 2.
      destruct (sync_until_regenerated w s0) as [[[] | e] s1]; [| exact Hq1].
      rewrite commit_template_changes_clean by exact Hclean.
      cbn [snd] in Hq1. rewrite (Hafter s1 Hq1).
      now apply quiet_reset_target_dir. }
    destruct Hq as [Hm Ht]. split; [exact Hm |].
    intros e He. rewrite Forall_forall in Ht. now apply Ht.
  - intros s1 Hregen.
    pose proof (quiet_sync_until_regenerated w s0 Hq0) as Hq1.
    rewrite Hregen in Hq1. cbn [snd] in Hq1.
    rewrite sync_phases. unfold sync_until_commit, bind at 1 2.
    rewrite Hregen, commit_template_changes_clean by exact Hclean.
    now apply Hafter.
Qed.

Lemma clean_regeneration_is_a_no_op_witness :
  sync world_no_changes (example_session world_no_changes) =
    (Ret tt,
     mkSt (set_from_branch (Some "development")
             (set_original_branch (Some "development")
                (self (inspected_session world_no_changes))))
          "development"
          [GitCheckoutNew "origin/TEMPLATE" "TEMPLATE";
           Unlink "/home/alice/demo/README.md"; Rmtree "/home/alice/demo/src";
           ChooseDomain example_dot; CopyTree (PStr "demo") "/home/alice/demo";
           GitCheckout "development"]).
Proof.
  pose proof (clean_regeneration_is_a_no_op world_no_changes
                (example_session world_no_changes)
                eq_refl eq_refl eq_refl) as (_ & _ & H).
  rewrite (H _ eq_refl). reflexivity.
Defined.

(** ** Sync Orchestrator: restoring the original branch *)

(** C1, as stated, fails: when the scaffold engine fails, the session ends
    on the TEMPLATE branch although [development] was recorded, and the
    restoring checkout is never issued. *)
Lemma sync_regeneration_failure_stays_on_template :
  let s' := snd (sync world_regeneration_fails
                   (example_session world_regeneration_fails)) in
  fst (sync world_regeneration_fails (example_session world_regeneration_fails))
  = Raise (OtherException "RuntimeError") /\
  original_branch (self s') = Some "development" /\
  active_branch s' = "TEMPLATE" /\
  active_branch s' <> "development" /\
  ~ In (GitCheckout "development") (trace s').
Proof.
  cbv zeta. repeat (split; [vm_compute; reflexivity |]).
  split; [vm_compute; discriminate |].
  vm_compute. intros H.
  repeat (destruct H as [H | H]; [discriminate H |]). exact H.
Qed.

(** The same happens when the configuration file lacks the section of the
    blacklisted globs: the commit step exits on the TEMPLATE branch. *)
Example sync_missing_blacklist_section_stays_on_template :
  sync world_no_blacklist_section (example_session world_no_blacklist_section)
  = (Raise (SystemExit 1),
     mkSt (set_from_branch (Some "development")
             (set_original_branch (Some "development")
                (self (inspected_session world_no_blacklist_section))))
          "TEMPLATE"
          [GitCheckoutNew "origin/TEMPLATE" "TEMPLATE";
           Unlink "/home/alice/demo/README.md"; Rmtree "/home/alice/demo/src";
           ChooseDomain example_dot; CopyTree (PStr "demo") "/home/alice/demo";
           GitAddAll]).
Proof. vm_compute. reflexivity. Qed.

(** A rejected push makes [push_template_branch] call [sys.exit] itself;
    [SystemExit] is no [Exception], so the handler in [sync] that restores
    the branch is passed by. *)
Example sync_rejected_push_stays_on_template :
  let r := sync world_push_rejected (example_session world_push_rejected) in
  fst r = Raise (SystemExit 1) /\
  active_branch (snd r) = "TEMPLATE" /\
  original_branch (self (snd r)) = Some "development".
Proof. cbv zeta. repeat split; vm_compute; reflexivity. Qed.

(** C1 (amended): a session that ends in success, and a session in which
    the push or the pull request raises an exception that the handler in
    [sync] catches, run the restoring checkout.  After a successful session
    the checked-out branch is the one recorded in Inspecting, which is the
    one the session started on, and the last command issued is its checkout;
    after a caught failure the process exits with status 1, on the recorded
    branch whenever that checkout succeeds.  A failure in any step up to and
    including the commit ends the session where it occurs, with no
    restoring checkout. *)
Theorem sync_restores_original_branch w s0 :
  (forall s',
      sync w s0 = (Ret tt, s') ->
      active_branch s' = active_branch s0 /\
      original_branch (self s') = Some (active_branch s0) /\
      exists tr, trace s' = (tr ++ [GitCheckout (active_branch s0)])%list) /\
  (forall b s1 e s2,
      sync_until_commit w s0 = (Ret b, s1) ->
      made_changes (self s1) = true ->
      push_and_pr w s1 = (Raise e, s2) ->
      is_Exception e = true ->
      sync w s0 = bind (reset_target_dir w) (fun _ => sys_exit 1) s2 /\
      (checkout_ok w (active_branch s0) = true ->
       sync w s0 =
         (Raise (SystemExit 1),
          mkSt (self s2) (active_branch s0)
               (trace s2 ++ [GitCheckout (active_branch s0)])))) /\
  (forall e s1,
      sync_until_commit w s0 = (Raise e, s1) ->
      sync w s0 = (Raise e, s1)).
Proof.
  split; [| split].
  - intros s' Hsync. rewrite sync_phases in Hsync.
    apply bind_Ret_inv in Hsync as (b & s1 & Hcommit & Hafter).
    pose proof (sync_until_commit_records w s0 b s1 Hcommit) as Hrec1.
    unfold sync_after_commit in Hafter.
    apply bind_Ret_inv in Hafter as (o & s1' & Hget & Hafter).
    unfold get_self in Hget. injection Hget as <- <-.
    apply bind_Ret_inv in Hafter as ([] & s2 & Hmid & Hreset).
    assert (Hrec2 : recorded (active_branch s0) s2).
    { assert (Hp : preserves (recorded (active_branch s0))
                     (if made_changes (self s1)
                      then try_except (push_and_pr w) is_Exception
                             (fun _ => reset_target_dir w ;; sys_exit 1)
                      else ret tt)).
      { destruct (made_changes (self s1)); [| apply preserves_ret].
        apply preserves_try_except; [apply recorded_push_and_pr |].
        intros _. apply preserves_bind;
          [apply recorded_reset_target_dir | intros _; apply preserves_sys_exit]. }
      specialize (Hp s1 Hrec1). rewrite Hmid in Hp. exact Hp. }
    pose proof (reset_target_dir_Ret w s2 _ s' Hrec2 Hreset) as Hok.
    rewrite (reset_target_dir_restores w s2 _ Hrec2 Hok) in Hreset.
    injection Hreset as <-. cbn [active_branch self trace].
    split; [reflexivity |]. split; [exact Hrec2 |]. now exists (trace s2).
  - intros b s1 e s2 Hcommit Hmade Hraise Hexn.
    assert (Hsync : sync w s0 = bind (reset_target_dir w) (fun _ => sys_exit 1) s2).
    { rewrite sync_phases, (bind_Ret _ _ _ _ _ Hcommit).
      unfold sync_after_commit, get_self, bind at 1 2.
      rewrite Hmade. unfold try_except. rewrite Hraise, Hexn.
      unfold bind, sys_exit, raise.
      destruct (reset_target_dir w s2) as [[[] | e'] s3]; reflexivity. }
    split; [exact Hsync |].
    intros Hok. rewrite Hsync.
    assert (Hrec2 : recorded (active_branch s0) s2).
    { pose proof (recorded_push_and_pr w _ s1
                    (sync_until_commit_records w s0 b s1 Hcommit)) as Hp.
      rewrite Hraise in Hp. exact Hp. }
    unfold bind. rewrite (reset_target_dir_restores w s2 _ Hrec2 Hok).
    reflexivity.
  - intros e s1 Hfail. rewrite sync_phases. now apply bind_Raise.
Qed.

Lemma sync_restores_original_branch_witness :
  active_branch (snd (sync nominal_world (example_session nominal_world)))
  = "development" /\
  (let r := sync world_no_origin (example_session world_no_origin) in
   fst r = Raise (SystemExit 1) /\ active_branch (snd r) = "development") /\
  fst (sync world_regeneration_fails (example_session world_regeneration_fails))
  = Raise (OtherException "RuntimeError").
Proof.
  split; [| split].
  - apply (proj1 (sync_restores_original_branch nominal_world
                    (example_session nominal_world))
             (snd (sync nominal_world (example_session nominal_world)))).
    vm_compute. reflexivity.
  - cbv zeta.
    destruct
      (proj1 (proj2 (sync_restores_original_branch world_no_origin
                       (example_session world_no_origin)))
         true
         (snd (sync_until_commit world_no_origin (example_session world_no_origin)))
         (OtherException "ValueError")
         (snd (sync_until_commit world_no_origin (example_session world_no_origin))))
      as [_ H]; try (vm_compute; reflexivity).
    rewrite H by (vm_compute; reflexivity). split; reflexivity.
  - rewrite (proj2 (proj2 (sync_restores_original_branch world_regeneration_fails
                             (example_session world_regeneration_fails)))
               (OtherException "RuntimeError")
               (snd (sync_until_commit world_regeneration_fails
                       (example_session world_regeneration_fails))))
      by (vm_compute; reflexivity).
    reflexivity.
Defined.

(** ** Sync Orchestrator: committing, continued *)

(** C10, as stated, fails: staging succeeds, yet with no
    [sync_files_blacklisted] section in the configuration file the method
    exits with status 1 and [made_changes] stays false. *)
Lemma commit_template_changes_exits_after_staging :
  let r := commit_template_changes world_no_blacklist_section
             (inspected_session world_no_blacklist_section) in
  git_add_error world_no_blacklist_section = None /\
  trace (snd r) = [GitAddAll] /\
  fst r = Raise (SystemExit 1) /\
  made_changes (self (snd r)) = false.
Proof. cbv zeta. repeat split; vm_compute; reflexivity. Qed.

Lemma commit_template_changes_ignores_exit_status_witness :
  popen_returncode world_commit_fails
    ["git"; "commit"; "-m"; "Cookietemple sync"; "a.txt"; "d.yml"] = 1%Z /\
  fst (commit_template_changes world_commit_fails
         (inspected_session world_commit_fails)) = Ret true /\
  made_changes (self (snd (commit_template_changes world_commit_fails
                             (inspected_session world_commit_fails)))) = true.
Proof.
  split; [vm_compute; reflexivity |].
  apply (proj2 (commit_template_changes_ignores_exit_status world_commit_fails
                  (inspected_session world_commit_fails))
           [("changelog", "*.md")]);
    vm_compute; reflexivity.
Defined.

(** ** Instances of the policy and pull-request properties *)

(** From 1.2.3 to 1.3.0 under policy minor: a minor update, which passes the
    policy check. *)
Example scenario_minor_update_under_minor_policy :
  fst (has_template_version_changed nominal_world "/home/alice/demo"
         (example_session nominal_world))
  = Ret (false, true, false, "1.2.3", "1.3.0") /\
  fst (check_sync_level nominal_world (example_session nominal_world)) = Ret true.
Proof. split; vm_compute; reflexivity. Qed.

(** A patch update under policy minor does not pass. *)
Example scenario_patch_update_under_minor_policy :
  version_flags v1_2_3 v1_2_4 = (false, false, true) /\
  fst (check_sync_level nominal_world
         (mkSt (TemplateSync_init nominal_world "/home/alice/demo" "1.2.4"
                  None None None false false true)
               "development" []))
  = Ret false.
Proof. split; vm_compute; reflexivity. Qed.

Lemma check_sync_level_gates_by_tier_witness :
  exists b : bool,
    check_sync_level nominal_world (example_session nominal_world)
    = (Ret b, example_session nominal_world) /\
    (b = true <-> ("minor" = "patch" \/ "minor" = "minor")).
Proof.
  apply (check_sync_level_gates_by_tier nominal_world
           (example_session nominal_world) "ct_sync_level" "minor" MinorTier);
    vm_compute; reflexivity.
Defined.

Lemma check_sync_level_no_update_allows_witness :
  check_sync_level nominal_world (no_update_session nominal_world)
  = (Ret true, no_update_session nominal_world).
Proof.
  apply (check_sync_level_no_update_allows nominal_world
           (no_update_session nominal_world) "ct_sync_level" "minor");
    vm_compute; reflexivity.
Defined.

Lemma check_sync_level_misconfigured_exits_witness :
  check_sync_level world_empty_config (example_session world_empty_config)
  = (Raise (SystemExit 1), example_session world_empty_config).
Proof.
  apply (proj1 (check_sync_level_misconfigured_exits world_empty_config
                  (example_session world_empty_config))).
  left. vm_compute. reflexivity.
Defined.

Lemma make_pull_request_submits_iff_no_open_sync_pr_witness :
  trace (snd (make_pull_request world_open_sync_pr
                (inspected_session world_open_sync_pr)))
  = [HttpGetOpenPulls (PStr "alice") (PStr "demo") "secret"] /\
  trace (snd (make_pull_request nominal_world (inspected_session nominal_world)))
  = [HttpGetOpenPulls (PStr "alice") (PStr "demo") "secret";
     HttpPostPull (PStr "alice") (PStr "demo")
       (mkPrContent "Important cookietemple template update 1.3.0 released!"
          pr_body_text true "TEMPLATE" "development")
       "alice" "secret"].
Proof.
  split.
  - pose proof
      (make_pull_request_submits_iff_no_open_sync_pr world_open_sync_pr
         (inspected_session world_open_sync_pr)
         (PBool false) (PStr "") (PStr "demo")
         [[("title", PStr "Fix typo")];
          [("title",
            PStr "Important cookietemple template update 1.2.0 released!")]]
         ltac:(vm_compute; reflexivity)
         ltac:(intros H; discriminate H)
         ltac:(vm_compute; reflexivity)
         ltac:(vm_compute; reflexivity)
         ltac:(repeat constructor; eexists; vm_compute; reflexivity))
      as (_ & Hopen & _).
    destruct Hopen as [Htrace _]; [vm_compute; reflexivity |].
    rewrite Htrace. vm_compute. reflexivity.
  - pose proof
      (make_pull_request_submits_iff_no_open_sync_pr nominal_world
         (inspected_session nominal_world)
         (PBool false) (PStr "") (PStr "demo") []
         ltac:(vm_compute; reflexivity)
         ltac:(intros H; discriminate H)
         ltac:(vm_compute; reflexivity)
         ltac:(vm_compute; reflexivity)
         ltac:(constructor))
      as (Hnone & _ & _).
    rewrite (proj1 Hnone) by reflexivity. vm_compute. reflexivity.
Defined.

(** * Further properties of the code *)

(** ** Inspecting *)

(** Inspecting issues no command and leaves the checked-out branch alone,
    however it ends. *)
Theorem inspect_sync_dir_issues_nothing w s :
  trace (snd (inspect_sync_dir w s)) = trace s /\
  active_branch (snd (inspect_sync_dir w s)) = active_branch s.
Proof.
  set (P := fun s' : St => trace s' = trace s /\ active_branch s' = active_branch s).
  apply (preserves_inspect_sync_dir P); try (intros v s' H; exact H).
  split; reflexivity.
Qed.

(** Inspecting returns only when the metadata file exists and loads, the
    directory is a git repository and the working copy is clean; it then has
    stored the metadata and recorded the checked-out branch, and nothing
    else has changed. *)
Theorem inspect_sync_dir_returns_only_when w s s' :
  inspect_sync_dir w s = (Ret tt, s') ->
  path_exists w (dot_cookietemple_path (self s)) = true /\
  git_repo_error w (project_dir (self s)) = None /\
  dirty_at_inspection w = false /\
  exists dot,
    load_yaml_file w (dot_cookietemple_path (self s)) = inr dot /\
    s' = mkSt (set_original_branch (Some (active_branch s))
                 (set_dot_cookietemple dot (self s)))
              (active_branch s) (trace s).
Proof.
  unfold inspect_sync_dir, dot_cookietemple_path. monad_unfold.
  destruct (path_exists w _); cbn [negb]; cbv beta iota; [| discriminate].
  destruct (load_yaml_file w _) as [e | dot]; cbv beta iota; [discriminate |].
  destruct (git_repo_error w _) as [e |]; cbv beta iota.
  - destruct (is_InvalidGitRepositoryError e); discriminate.
  - destruct (dirty_at_inspection w); cbv beta iota; [discriminate |].
    intros H. injection H as <-. repeat split. now exists dot.
Qed.

Lemma inspect_sync_dir_returns_only_when_witness :
  dot_cookietemple
    (self (snd (inspect_sync_dir nominal_world (example_session nominal_world))))
  = example_dot /\
  original_branch
    (self (snd (inspect_sync_dir nominal_world (example_session nominal_world))))
  = Some "development".
Proof.
  destruct (inspect_sync_dir_returns_only_when nominal_world
              (example_session nominal_world)
              (snd (inspect_sync_dir nominal_world (example_session nominal_world)))
              ltac:(vm_compute; reflexivity))
    as (_ & _ & _ & dot & Hload & Hstate).
  rewrite Hstate. vm_compute in Hload. injection Hload as <-.
  split; reflexivity.
Defined.

(** Each violation that Inspecting anticipates ends the process with exit
    status 1: a missing metadata file (before anything is read), a directory
    that is no git repository, and a working copy with uncommitted changes
    (after the branch has been recorded). *)
Theorem inspect_sync_dir_violation_exits w s :
  (path_exists w (dot_cookietemple_path (self s)) = false ->
   inspect_sync_dir w s = (Raise (SystemExit 1), s)) /\
  (forall dot,
      path_exists w (dot_cookietemple_path (self s)) = true ->
      load_yaml_file w (dot_cookietemple_path (self s)) = inr dot ->
      git_repo_error w (project_dir (self s)) = Some InvalidGitRepositoryError ->
      inspect_sync_dir w s =
        (Raise (SystemExit 1),
         mkSt (set_dot_cookietemple dot (self s)) (active_branch s) (trace s))) /\
  (forall dot,
      path_exists w (dot_cookietemple_path (self s)) = true ->
      load_yaml_file w (dot_cookietemple_path (self s)) = inr dot ->
      git_repo_error w (project_dir (self s)) = None ->
      dirty_at_inspection w = true ->
      inspect_sync_dir w s =
        (Raise (SystemExit 1),
         mkSt (set_original_branch (Some (active_branch s))
                 (set_dot_cookietemple dot (self s)))
              (active_branch s) (trace s))).
Proof.
  unfold inspect_sync_dir, dot_cookietemple_path. split; [| split].
  - intros Hex. monad_unfold. rewrite Hex. reflexivity.
  - intros dot Hex Hload Hrepo. monad_unfold.
    rewrite Hex. cbn [negb]. cbv beta iota. rewrite Hload. cbv beta iota.
    rewrite Hrepo. reflexivity.
  - intros dot Hex Hload Hrepo Hdirty. monad_unfold.
    rewrite Hex. cbn [negb]. cbv beta iota. rewrite Hload. cbv beta iota.
    rewrite Hrepo. cbv beta iota. rewrite Hdirty. reflexivity.
Qed.

Lemma inspect_sync_dir_violation_exits_witness :
  fst (inspect_sync_dir (with_inspection nominal_world false None false)
         (example_session nominal_world)) = Raise (SystemExit 1) /\
  fst (inspect_sync_dir
         (with_inspection nominal_world true (Some InvalidGitRepositoryError) false)
         (example_session nominal_world)) = Raise (SystemExit 1) /\
  fst (inspect_sync_dir (with_inspection nominal_world true None true)
         (example_session nominal_world)) = Raise (SystemExit 1).
Proof.
  split; [| split].
  - rewrite (proj1 (inspect_sync_dir_violation_exits
                      (with_inspection nominal_world false None false)
                      (example_session nominal_world)))
      by (vm_compute; reflexivity).
    reflexivity.
  - rewrite (proj1 (proj2 (inspect_sync_dir_violation_exits
                      (with_inspection nominal_world true
                         (Some InvalidGitRepositoryError) false)
                      (example_session nominal_world))) example_dot)
      by (vm_compute; reflexivity).
    reflexivity.
  - rewrite (proj2 (proj2 (inspect_sync_dir_violation_exits
                      (with_inspection nominal_world true None true)
                      (example_session nominal_world))) example_dot)
      by (vm_compute; reflexivity).
    reflexivity.
Defined.

(** ** BranchCheckout *)

(** The remote TEMPLATE branch is tried first and the local one only when
    that fails; when either checkout succeeds the repository is on TEMPLATE,
    and when both fail the process exits with status 1 on the branch it was
    on.  In every case [from_branch] holds the branch that was checked out
    before. *)
Theorem checkout_template_branch_outcomes w s :
  let o := set_from_branch (Some (active_branch s)) (self s) in
  let remote := GitCheckoutNew "origin/TEMPLATE" "TEMPLATE" in
  let local := GitCheckout "TEMPLATE" in
  (checkout_new_ok w = true ->
   checkout_template_branch w s
   = (Ret tt, mkSt o "TEMPLATE" (trace s ++ [remote]))) /\
  (checkout_new_ok w = false -> checkout_ok w "TEMPLATE" = true ->
   checkout_template_branch w s
   = (Ret tt, mkSt o "TEMPLATE" (trace s ++ [remote; local]))) /\
  (checkout_new_ok w = false -> checkout_ok w "TEMPLATE" = false ->
   checkout_template_branch w s
   = (Raise (SystemExit 1), mkSt o (active_branch s) (trace s ++ [remote; local]))).
Proof.
  cbv zeta. unfold checkout_template_branch. split; [| split].
  - intros Hnew. monad_unfold. rewrite Hnew. reflexivity.
  - intros Hnew Hloc. monad_unfold. rewrite Hnew. cbn. rewrite Hloc.
    cbn. now rewrite <- app_assoc.
  - intros Hnew Hloc. monad_unfold. rewrite Hnew. cbn. rewrite Hloc.
    cbn. now rewrite <- app_assoc.
Qed.

Lemma checkout_template_branch_outcomes_witness :
  active_branch (snd (checkout_template_branch nominal_world
                        (example_session nominal_world))) = "TEMPLATE" /\
  trace (snd (checkout_template_branch
                (with_checkout nominal_world false (fun _ => true))
                (example_session nominal_world)))
  = [GitCheckoutNew "origin/TEMPLATE" "TEMPLATE"; GitCheckout "TEMPLATE"] /\
  checkout_template_branch (with_checkout nominal_world false (fun _ => false))
    (example_session nominal_world)
  = (Raise (SystemExit 1),
     mkSt (set_from_branch (Some "development")
             (self (example_session nominal_world)))
          "development"
          [GitCheckoutNew "origin/TEMPLATE" "TEMPLATE"; GitCheckout "TEMPLATE"]).
Proof.
  split; [| split].
  - rewrite (proj1 (checkout_template_branch_outcomes nominal_world
                      (example_session nominal_world)))
      by (vm_compute; reflexivity).
    reflexivity.
  - rewrite (proj1 (proj2 (checkout_template_branch_outcomes
                             (with_checkout nominal_world false (fun _ => true))
                             (example_session nominal_world))))
      by (vm_compute; reflexivity).
    reflexivity.
  - rewrite (proj2 (proj2 (checkout_template_branch_outcomes
                             (with_checkout nominal_world false (fun _ => false))
                             (example_session nominal_world))))
      by (vm_compute; reflexivity).
    reflexivity.
Defined.

(** ** RegenerateTemplate: deleting the files of the TEMPLATE branch *)

Lemma state_eta (s : St) : mkSt (self s) (active_branch s) (trace s) = s.
Proof. destruct s. reflexivity. Qed.

(** One round of the loop: the entry is skipped or its deletion issued; a
    failure ends the loop, otherwise it goes on with the rest. *)
Lemma delete_entries_cons dir e rest s :
  delete_entries dir (e :: rest) s =
    let s1 := mkSt (self s) (active_branch s) (trace s ++ deletion_event dir e) in
    match deletion_fails e with
    | Some x => (Raise (if is_Exception x then SystemExit 1 else x), s1)
    | None => delete_entries dir rest s1
    end.
Proof.
  cbn [delete_entries]. unfold deletion_fails, deletion_event.
  destruct (entry_name e =? ".git").
  - cbv zeta. now rewrite app_nil_r, state_eta.
  - destruct (kind e); monad_unfold.
    + destruct (delete_error e) as [x |]; [destruct (is_Exception x) |]; reflexivity.
    + destruct (delete_error e) as [x |]; [destruct (is_Exception x) |]; reflexivity.
    + now rewrite app_nil_r, state_eta.
Qed.

(** The loop handles a prefix of the listing, and nothing but the trace
    changes. *)
Lemma delete_entries_prefix dir entries s :
  exists n,
    snd (delete_entries dir entries s)
    = mkSt (self s) (active_branch s)
           (trace s ++ flat_map (deletion_event dir) (firstn n entries)).
Proof.
  revert s. induction entries as [| e rest IH]; intros s.
  - exists 0. cbn. now rewrite app_nil_r, state_eta.
  - rewrite delete_entries_cons. cbv zeta.
    destruct (deletion_fails e) as [x |].
    + exists 1. cbn. now rewrite app_nil_r.
    + destruct (IH (mkSt (self s) (active_branch s)
                      (trace s ++ deletion_event dir e))) as [n Hn].
      exists (S n). rewrite Hn. cbn. now rewrite <- app_assoc.
Qed.

(** When no deletion fails, every entry is handled. *)
Lemma delete_entries_all dir entries s :
  (forall e, In e entries -> deletion_fails e = None) ->
  delete_entries dir entries s
  = (Ret tt, mkSt (self s) (active_branch s)
                  (trace s ++ flat_map (deletion_event dir) entries)).
Proof.
  revert s. induction entries as [| e rest IH]; intros s Hok.
  - cbn. now rewrite app_nil_r, state_eta.
  - rewrite delete_entries_cons, (Hok e) by now left. cbv zeta.
    rewrite IH by (intros e' H; apply Hok; now right).
    cbn. now rewrite <- app_assoc.
Qed.

(** The first deletion that fails ends the loop. *)
Lemma delete_entries_first_failure dir before e after s x :
  (forall e', In e' before -> deletion_fails e' = None) ->
  deletion_fails e = Some x ->
  delete_entries dir (before ++ e :: after) s
  = (Raise (if is_Exception x then SystemExit 1 else x),
     mkSt (self s) (active_branch s)
          (trace s ++ flat_map (deletion_event dir) (before ++ [e]))).
Proof.
  revert s. induction before as [| b before IH]; intros s Hok Hfail.
  - cbn [app]. rewrite delete_entries_cons, Hfail. cbn. now rewrite app_nil_r.
  - cbn [app]. rewrite delete_entries_cons, (Hok b) by now left. cbv zeta.
    rewrite IH by (try assumption; intros e' H; apply Hok; now right).
    cbn. now rewrite <- app_assoc.
Qed.

(** However it ends, deleting the files of the TEMPLATE branch changes
    nothing but the trace, and everything it issues is the removal of a file
    or directory of the listing whose name is not [.git]. *)
Theorem delete_template_branch_files_spares_git w s :
  exists issued,
    snd (delete_template_branch_files w s)
    = mkSt (self s) (active_branch s) (trace s ++ issued) /\
    forall ev, In ev issued ->
      exists e, In e (listdir w) /\ entry_name e <> ".git" /\
        ((kind e = IsFile /\ ev = Unlink (path_join (project_dir (self s)) (entry_name e))) \/
         (kind e = IsDir /\ ev = Rmtree (path_join (project_dir (self s)) (entry_name e)))).
Proof.
  destruct (delete_entries_prefix (project_dir (self s)) (listdir w) s) as [n Hn].
  exists (flat_map (deletion_event (project_dir (self s))) (firstn n (listdir w))).
  split.
  - unfold delete_template_branch_files, bind, get_self. cbv beta iota.
    exact Hn.
  - intros ev Hev. apply in_flat_map in Hev as (e & He & Hev).
    exists e. split;
      [rewrite <- (firstn_skipn n (listdir w)); apply in_or_app; now left |].
    unfold deletion_event in Hev.
    destruct (entry_name e =? ".git") eqn:Hgit; [contradiction |].
    apply String.eqb_neq in Hgit. split; [exact Hgit |].
    destruct (kind e); cbn in Hev; try contradiction;
      destruct Hev as [<- | []]; auto.
Qed.

(** When no deletion fails, every file and directory other than [.git] is
    removed, in the order of the listing; otherwise the loop stops at the
    first failure, the later entries are left in place, and the process
    exits with status 1 (an exception that is no [Exception] passes). *)
Theorem delete_template_branch_files_stops_at_first_failure w s :
  let dir := project_dir (self s) in
  ((forall e, In e (listdir w) -> deletion_fails e = None) ->
   delete_template_branch_files w s
   = (Ret tt, mkSt (self s) (active_branch s)
                   (trace s ++ flat_map (deletion_event dir) (listdir w)))) /\
  (forall before e after x,
      listdir w = (before ++ e :: after)%list ->
      (forall e', In e' before -> deletion_fails e' = None) ->
      deletion_fails e = Some x ->
      delete_template_branch_files w s
      = (Raise (if is_Exception x then SystemExit 1 else x),
         mkSt (self s) (active_branch s)
              (trace s ++ flat_map (deletion_event dir) (before ++ [e])))).
Proof.
  cbv zeta. unfold delete_template_branch_files, bind, get_self. cbv beta iota.
  split.
  - apply delete_entries_all.
  - intros before e after x -> Hok Hfail. now apply delete_entries_first_failure.
Qed.

Lemma delete_template_branch_files_stops_at_first_failure_witness :
  delete_template_branch_files nominal_world
    (example_session nominal_world)
  = (Ret tt,
     mkSt (self (example_session nominal_world)) "development"
          [Unlink "/home/alice/demo/README.md"; Rmtree "/home/alice/demo/src"]) /\
  delete_template_branch_files (with_listdir nominal_world listing_with_failure)
    (example_session nominal_world)
  = (Raise (SystemExit 1),
     mkSt (self (example_session nominal_world)) "development"
          [Unlink "/home/alice/demo/README.md"; Rmtree "/home/alice/demo/docs"]).
Proof.
  split.
  - rewrite (proj1 (delete_template_branch_files_stops_at_first_failure
                      nominal_world (example_session nominal_world))).
    + vm_compute. reflexivity.
    + intros e [<- | [<- | [<- | []]]]; reflexivity.
  - rewrite (proj2 (delete_template_branch_files_stops_at_first_failure
                      (with_listdir nominal_world listing_with_failure)
                      (example_session nominal_world))
               [mkDirEntry ".git" IsDir None; mkDirEntry "README.md" IsFile None]
               (mkDirEntry "docs" IsDir (Some (OtherException "PermissionError")))
               [mkDirEntry "src" IsDir None]
               (OtherException "PermissionError")).
    + vm_compute. reflexivity.
    + reflexivity.
    + intros e [<- | [<- | []]]; reflexivity.
    + reflexivity.
Defined.

(** ** RegenerateTemplate: making the fresh template *)



(** ** PushAndPR: pushing *)

(** [push_template_branch] turns a [GitCommandError] into exit status 1 and
    lets every other exception pass as it is; the upstream branch is set
    before the push, and neither is issued when the remote cannot be found.
    The object and the branch stay as they were. *)
Theorem push_template_branch_outcomes w s :
  (forall e,
      remote_origin_error w = Some e ->
      push_template_branch w s
      = (Raise (if is_GitCommandError e then SystemExit 1 else e), s)) /\
  (remote_origin_error w = None ->
   push_template_branch w s
   = (match git_push_error w with
      | None => Ret tt
      | Some e => Raise (if is_GitCommandError e then SystemExit 1 else e)
      end,
      mkSt (self s) (active_branch s)
           (trace s ++ [SetTrackingBranch "origin/TEMPLATE"; GitPushForce]))).
Proof.
  unfold push_template_branch. split.
  - intros e He. monad_unfold. rewrite He. cbn.
    destruct (is_GitCommandError e); reflexivity.
  - intros He. monad_unfold. rewrite He. cbn. rewrite <- app_assoc. cbn.
    destruct (git_push_error w) as [e |]; [| reflexivity].
    cbn. destruct (is_GitCommandError e); reflexivity.
Qed.

Lemma push_template_branch_outcomes_witness :
  fst (push_template_branch world_no_origin (inspected_session world_no_origin))
  = Raise (OtherException "ValueError") /\
  push_template_branch world_push_rejected (inspected_session world_push_rejected)
  = (Raise (SystemExit 1),
     mkSt (self (inspected_session world_push_rejected)) "development"
          [SetTrackingBranch "origin/TEMPLATE"; GitPushForce]).
Proof.
  split.
  - rewrite (proj1 (push_template_branch_outcomes world_no_origin
                      (inspected_session world_no_origin))
               (OtherException "ValueError"))
      by (vm_compute; reflexivity).
    reflexivity.
  - rewrite (proj2 (push_template_branch_outcomes world_push_rejected
                      (inspected_session world_push_rejected)))
      by (vm_compute; reflexivity).
    reflexivity.
Defined.

(** ** PushAndPR: looking for an open sync pull request *)

(** The search stops at the first open pull request whose title carries the
    sync words: the entries after it are not looked at, so a malformed one
    among them does no harm; an entry without a title that comes before any
    match raises [KeyError]. *)
Theorem sync_pr_among_stops_at_first_match before pull_request after s :
  Forall has_title before ->
  existsb carries_sync_title before = false ->
  (carries_sync_title pull_request = true ->
   sync_pr_among (before ++ pull_request :: after) s = (Ret true, s)) /\
  (dict_get pull_request "title" = None ->
   sync_pr_among (before ++ pull_request :: after) s = (Raise (KeyError "title"), s)).
Proof.
  intros Htitles. induction Htitles as [| b before [t Ht] _ IH]; intros Hnone.
  - cbn [app sync_pr_among]. split.
    + unfold carries_sync_title. intros Hc. monad_unfold.
      destruct (dict_get pull_request "title") as [[| ? | t] |];
        try discriminate Hc.
      cbv beta iota. now rewrite Hc.
    + intros Hmiss. monad_unfold. now rewrite Hmiss.
  - cbn [existsb] in Hnone. apply orb_false_iff in Hnone as [Hb Hrest].
    specialize (IH Hrest). cbn [app sync_pr_among].
    unfold carries_sync_title in Hb. rewrite Ht in Hb.
    monad_unfold. rewrite Ht. cbv beta iota. rewrite Hb. exact IH.
Qed.

Lemma sync_pr_among_stops_at_first_match_witness :
  sync_pr_among
    [[("title", PStr "Fix typo")];
     [("title", PStr "Important cookietemple template update 1.2.0 released!")];
     [("number", PStr "7")]]
    (example_session nominal_world)
  = (Ret true, example_session nominal_world) /\
  sync_pr_among
    [[("title", PStr "Fix typo")];
     [("number", PStr "7")];
     [("title", PStr "Important cookietemple template update 1.2.0 released!")]]
    (example_session nominal_world)
  = (Raise (KeyError "title"), example_session nominal_world).
Proof.
  split.
  - apply (proj1 (sync_pr_among_stops_at_first_match
                    [[("title", PStr "Fix typo")]]
                    [("title",
                      PStr "Important cookietemple template update 1.2.0 released!")]
                    [[("number", PStr "7")]]
                    (example_session nominal_world)
                    ltac:(repeat constructor; eexists; vm_compute; reflexivity)
                    ltac:(vm_compute; reflexivity))).
    vm_compute. reflexivity.
  - apply (proj2 (sync_pr_among_stops_at_first_match
                    [[("title", PStr "Fix typo")]]
                    [("number", PStr "7")]
                    [[("title",
                       PStr "Important cookietemple template update 1.2.0 released!")]]
                    (example_session nominal_world)
                    ltac:(repeat constructor; eexists; vm_compute; reflexivity)
                    ltac:(vm_compute; reflexivity))).
    vm_compute. reflexivity.
Defined.

(** ** PushAndPR: submitting the pull request *)

(** [submit_pull_request] returns only for an answer with status code 201;
    every other status code ends in exit status 1.  The decoded answer is
    kept in [gh_pr_returned_data] either way.  An exception raised by the
    request passes as it is, and so does one raised while decoding the
    answer unless it is a [RequestException], even when the status code is
    201.  Without a [project_slug] no request is sent. *)
Theorem submit_pull_request_outcomes w title body s :
  let o := self s in
  (dict_get (dot_cookietemple o) "project_slug" = None ->
   submit_pull_request w title body s = (Raise (KeyError "project_slug"), s)) /\
  (forall slug,
      dict_get (dot_cookietemple o) "project_slug" = Some slug ->
      let posted :=
        (trace s ++ [HttpPostPull (repo_owner o) slug
                       (mkPrContent title body true "TEMPLATE" "development")
                       (gh_username o) (token o)])%list in
      (forall e,
          post_pull w = inl e ->
          submit_pull_request w title body s
          = (Raise e, mkSt o (active_branch s) posted)) /\
      (forall r data,
          post_pull w = inr r ->
          content_json r = inr data ->
          submit_pull_request w title body s
          = (if (status_code r =? 201)%Z then Ret tt else Raise (SystemExit 1),
             mkSt (set_gh_pr_returned_data (Decoded data) o)
                  (active_branch s) posted)) /\
      (forall r e,
          post_pull w = inr r ->
          content_json r = inl e ->
          is_RequestException e = false ->
          submit_pull_request w title body s
          = (Raise e, mkSt o (active_branch s) posted)) /\
      (forall s',
          submit_pull_request w title body s = (Ret tt, s') ->
          exists r, post_pull w = inr r /\ status_code r = 201%Z)).
Proof.
  cbv zeta. unfold submit_pull_request. split.
  - intros Hslug. monad_unfold. now rewrite Hslug.
  - intros slug Hslug. split; [| split; [| split]].
    + intros e He. monad_unfold. rewrite Hslug. cbv beta iota. now rewrite He.
    + intros r data Hr Hdata. monad_unfold. rewrite Hslug. cbv beta iota.
      rewrite Hr. cbv beta iota. rewrite Hdata. cbv beta iota.
      destruct (status_code r =? 201)%Z; reflexivity.
    + intros r e Hr He Hexn. monad_unfold. rewrite Hslug. cbv beta iota.
      rewrite Hr. cbv beta iota. rewrite He. cbv beta iota. now rewrite Hexn.
    + intros s'. monad_unfold. rewrite Hslug. cbv beta iota.
      destruct (post_pull w) as [e | r]; cbv beta iota; [discriminate |].
      intros H. exists r. split; [reflexivity |].
      destruct (status_code r =? 201)%Z eqn:Hcode; [now apply Z.eqb_eq |].
      destruct (content_json r) as [e | data]; cbv beta iota in H;
        [destruct (is_RequestException e) |]; discriminate H.
Qed.

Lemma submit_pull_request_outcomes_witness :
  fst (submit_pull_request
         (with_post_pull nominal_world
            (inr (mkResponse 422 "{}" (inr "Validation Failed"))))
         "t" "b" (inspected_session nominal_world))
  = Raise (SystemExit 1) /\
  gh_pr_returned_data
    (self (snd (submit_pull_request
                  (with_post_pull nominal_world
                     (inr (mkResponse 422 "{}" (inr "Validation Failed"))))
                  "t" "b" (inspected_session nominal_world))))
  = Decoded "Validation Failed" /\
  fst (submit_pull_request
         (with_post_pull nominal_world
            (inr (mkResponse 201 "<html>" (inl (OtherException "JSONDecodeError")))))
         "t" "b" (inspected_session nominal_world))
  = Raise (OtherException "JSONDecodeError").
Proof.
  pose proof (proj2 (submit_pull_request_outcomes
                       (with_post_pull nominal_world
                          (inr (mkResponse 422 "{}" (inr "Validation Failed"))))
                       "t" "b" (inspected_session nominal_world))
                (PStr "demo") ltac:(vm_compute; reflexivity))
    as (_ & Hcode & _).
  pose proof (proj2 (submit_pull_request_outcomes
                       (with_post_pull nominal_world
                          (inr (mkResponse 201 "<html>"
                                  (inl (OtherException "JSONDecodeError")))))
                       "t" "b" (inspected_session nominal_world))
                (PStr "demo") ltac:(vm_compute; reflexivity))
    as (_ & _ & Hdecode & _).
  rewrite (Hcode _ "Validation Failed" eq_refl eq_refl).
  rewrite (Hdecode _ (OtherException "JSONDecodeError") eq_refl eq_refl eq_refl).
  repeat split.
Defined.

(** When the metadata lacks a key that [make_pull_request] reads, the method
    raises [KeyError] before any request is made: [is_github_orga] always,
    and [github_orga] for an organisation project. *)
Theorem make_pull_request_missing_key w s :
  (dict_get (dot_cookietemple (self s)) "is_github_orga" = None ->
   make_pull_request w s = (Raise (KeyError "is_github_orga"), s)) /\
  (forall is_orga,
      dict_get (dot_cookietemple (self s)) "is_github_orga" = Some is_orga ->
      truthy is_orga = true ->
      dict_get (dot_cookietemple (self s)) "github_orga" = None ->
      make_pull_request w s = (Raise (KeyError "github_orga"), s)).
Proof.
  unfold make_pull_request. split.
  - intros H. monad_unfold. now rewrite H.
  - intros is_orga His Htrue Horga. monad_unfold. rewrite His. cbv beta iota.
    rewrite Htrue. cbv beta iota. now rewrite Horga.
Qed.

Lemma make_pull_request_missing_key_witness :
  make_pull_request nominal_world (example_session nominal_world)
  = (Raise (KeyError "is_github_orga"), example_session nominal_world) /\
  fst (make_pull_request nominal_world
         (mkSt (set_dot_cookietemple
                  [("project_slug", PStr "demo"); ("is_github_orga", PBool true)]
                  (self (example_session nominal_world)))
               "TEMPLATE" []))
  = Raise (KeyError "github_orga").
Proof.
  split.
  - apply (proj1 (make_pull_request_missing_key nominal_world
                    (example_session nominal_world))).
    vm_compute. reflexivity.
  - rewrite (proj2 (make_pull_request_missing_key nominal_world _) (PBool true))
      by (vm_compute; reflexivity).
    reflexivity.
Defined.

(** ** Restored *)

(** The restoring checkout either succeeds, and the recorded branch is
    checked out, or ends the process with exit status 1 on the branch the
    repository was on; nothing else about the state changes. *)
Theorem reset_target_dir_outcomes w s b :
  original_branch (self s) = Some b ->
  reset_target_dir w s
  = (if checkout_ok w b then Ret tt else Raise (SystemExit 1),
     mkSt (self s) (if checkout_ok w b then b else active_branch s)
          (trace s ++ [GitCheckout b])).
Proof.
  intros Hrec. unfold reset_target_dir. monad_unfold. rewrite Hrec.
  cbv beta iota. destruct (checkout_ok w b); reflexivity.
Qed.

Lemma reset_target_dir_outcomes_witness :
  reset_target_dir (with_checkout nominal_world true (fun _ => false))
    (mkSt (set_original_branch (Some "development")
             (self (example_session nominal_world)))
          "TEMPLATE" [])
  = (Raise (SystemExit 1),
     mkSt (set_original_branch (Some "development")
             (self (example_session nominal_world)))
          "TEMPLATE" [GitCheckout "development"]).
Proof.
  rewrite (reset_target_dir_outcomes _ _ "development") by reflexivity.
  reflexivity.
Defined.

(** ** The whole session *)

Lemma sync_unfold w s :
  sync w s = bind (inspect_sync_dir w) (fun _ => sync_after_inspection w) s.
Proof. reflexivity. Qed.

(** A property that every step keeps is kept by the steps after Inspecting,
    and by the whole of [sync] when Inspecting keeps it too. *)
Lemma preserves_sync_after_inspection (P : St -> Prop) w :
  preserves P (checkout_template_branch w) ->
  preserves P (delete_template_branch_files w) ->
  preserves P (make_template_project w) ->
  preserves P (commit_template_changes w) ->
  preserves P (push_and_pr w) ->
  preserves P (reset_target_dir w) ->
  preserves P (sync_after_inspection w).
Proof.
  intros Hco Hdel Hmake Hcommit Hpush Hreset. unfold sync_after_inspection.
  repeat (apply preserves_bind; [assumption | intros _]).
  apply preserves_bind; [apply preserves_get_self | intros o].
  apply preserves_bind; [| intros _; assumption].
  destruct (made_changes o); [| apply preserves_ret].
  apply preserves_try_except; [exact Hpush | intros _].
  apply preserves_bind; [assumption | intros _; apply preserves_sys_exit].
Qed.

Lemma preserves_sync (P : St -> Prop) w :
  preserves P (inspect_sync_dir w) ->
  preserves P (sync_after_inspection w) ->
  preserves P (sync w).
Proof.
  intros Hi Hrest s H. rewrite sync_unfold.
  apply (preserves_bind P _ _ Hi (fun _ => Hrest)). exact H.
Qed.

(** A property of the state that no assignment to an attribute, no change of
    branch and no command can break is kept by [sync]. *)
Lemma preserves_sync_stable (P : St -> Prop) w :
  (forall b, preserves P (set_active_branch b)) ->
  (forall e, preserves P (emit e)) ->
  (forall v, preserves P (modify_self (set_from_branch v))) ->
  (forall v, preserves P (modify_self (set_original_branch v))) ->
  (forall v, preserves P (modify_self (set_dot_cookietemple v))) ->
  (forall v, preserves P (modify_self (set_repo_owner v))) ->
  (forall v, preserves P (modify_self (set_gh_pr_returned_data v))) ->
  preserves P (modify_self (set_made_changes true)) ->
  preserves P (sync w).
Proof.
  intros Hbranch Hemit Hfrom Horig Hdot Howner Hdata Hmade.
  assert (Hemit' : forall e, (fun _ : event => true) e = true -> preserves P (emit e))
    by (intros e _; apply Hemit).
  apply preserves_sync.
  - apply preserves_inspect_sync_dir; assumption.
  - apply preserves_sync_after_inspection.
    + apply (preserves_checkout_template_branch P (fun _ => true)); auto.
    + apply (preserves_delete_template_branch_files P (fun _ => true)); auto.
    + apply (preserves_make_template_project P (fun _ => true)); auto.
    + apply (preserves_commit_template_changes P (fun _ => true)); auto.
    + unfold push_and_pr. apply preserves_bind; [| intros _].
      * apply (preserves_push_template_branch P (fun _ => true)); auto.
      * apply (preserves_make_pull_request P (fun _ => true)); auto.
    + apply (preserves_reset_target_dir P (fun _ => true)); auto.
Qed.

(** Whatever happens in a session, the attributes that identify it stay as
    the constructor set them: the project directory, the user name, the
    token, the new template version and the three update flags. *)
Theorem sync_keeps_identity w s :
  identity (self (snd (sync w s))) = identity (self s).
Proof.
  apply (preserves_sync_stable (fun s' => identity (self s') = identity (self s)));
    try (intros v s' H; exact H); try (intros s' H; exact H).
  reflexivity.
Qed.

Lemma on_original_or_template_emit b e :
  preserves (on_original_or_template b) (emit e).
Proof. intros s H. exact H. Qed.

Lemma on_original_or_template_checkout w b :
  preserves (on_original_or_template b) (checkout_template_branch w).
Proof.
  intros s [Hrec Hbr]. unfold checkout_template_branch. monad_unfold.
  destruct (checkout_new_ok w); cbn; [split; [exact Hrec | now right] |].
  destruct (checkout_ok w "TEMPLATE"); cbn; (split; [exact Hrec |]);
    [now right | exact Hbr].
Qed.

Lemma on_original_or_template_reset w b :
  preserves (on_original_or_template b) (reset_target_dir w).
Proof.
  intros s [Hrec Hbr]. unfold reset_target_dir. monad_unfold.
  unfold recorded in Hrec. rewrite Hrec. cbv beta iota.
  destruct (checkout_ok w b); cbn; (split; [exact Hrec |]);
    [now left | exact Hbr].
Qed.

(** However a session ends, the repository is on the branch it started on or
    on TEMPLATE, never on a third branch. *)
Theorem sync_ends_on_original_or_template w s :
  active_branch (snd (sync w s)) = active_branch s \/
  active_branch (snd (sync w s)) = "TEMPLATE".
Proof.
  rewrite sync_unfold. unfold bind.
  destruct (inspect_sync_dir w s) as [[[] | e] s1] eqn:Hi.
  - apply inspect_sync_dir_records in Hi as [Hrec Hbr].
    assert (Hemit : forall e, (fun _ : event => true) e = true ->
                              preserves (on_original_or_template (active_branch s))
                                        (emit e))
      by (intros e _; apply on_original_or_template_emit).
    assert (Hq : on_original_or_template (active_branch s) s1)
      by (split; [exact Hrec | now left]).
    apply (preserves_sync_after_inspection
             (on_original_or_template (active_branch s)) w) in Hq.
    + exact (proj2 Hq).
    + apply on_original_or_template_checkout.
    + apply (preserves_delete_template_branch_files _ (fun _ => true)); auto.
    + apply (preserves_make_template_project _ (fun _ => true)); auto.
    + apply (preserves_commit_template_changes _ (fun _ => true)); auto.
      intros s' H; exact H.
    + unfold push_and_pr. apply preserves_bind; [| intros _].
      * apply (preserves_push_template_branch _ (fun _ => true)); auto.
      * apply (preserves_make_pull_request _ (fun _ => true)); auto;
          intros v s' H; exact H.
    + apply on_original_or_template_reset.
  - left. cbn [snd].
    pose proof (preserves_inspect_sync_dir
                  (fun s' => active_branch s' = active_branch s)
                  (fun v s' H => H) (fun v s' H => H) w s eq_refl) as H.
    now rewrite Hi in H.
Qed.

(** When Inspecting fails, the session ends there: no command has been
    issued and the repository is on the branch it was on. *)
Theorem sync_failed_inspection_issues_nothing w s e s1 :
  inspect_sync_dir w s = (Raise e, s1) ->
  sync w s = (Raise e, s1) /\
  trace s1 = trace s /\
  active_branch s1 = active_branch s.
Proof.
  intros Hi. split.
  - rewrite sync_unfold. now apply bind_Raise.
  - pose proof (preserves_inspect_sync_dir
                  (fun s' => trace s' = trace s /\ active_branch s' = active_branch s)
                  (fun v s' H => H) (fun v s' H => H) w s (conj eq_refl eq_refl))
      as H.
    now rewrite Hi in H.
Qed.

Lemma sync_failed_inspection_issues_nothing_witness :
  sync (with_inspection nominal_world true None true) (example_session nominal_world)
  = (Raise (SystemExit 1),
     mkSt (set_original_branch (Some "development")
             (set_dot_cookietemple example_dot
                (self (example_session nominal_world))))
          "development" []).
Proof.
  apply (sync_failed_inspection_issues_nothing
           (with_inspection nominal_world true None true)
           (example_session nominal_world)).
  vm_compute. reflexivity.
Defined.

Lemma nothing_posted_emit e :
  negb (is_post e) = true -> preserves nothing_posted (emit e).
Proof.
  intros He s H e' Hin. apply negb_true_iff in He.
  cbn [emit snd trace] in Hin. apply in_app_or in Hin as [Hin | [<- | []]];
    [now apply H | exact He].
Qed.

(** When the remote cannot be found or the push fails, the push step raises
    and the pull-request step is never entered. *)
Lemma nothing_posted_failed_push w :
  remote_origin_error w <> None \/ git_push_error w <> None ->
  preserves nothing_posted (push_and_pr w).
Proof.
  intros Hfail s H.
  assert (Hpush : preserves nothing_posted (push_template_branch w))
    by (apply (preserves_push_template_branch _ (fun e => negb (is_post e)));
        auto using nothing_posted_emit).
  specialize (Hpush s H). unfold push_and_pr, bind.
  destruct (push_template_branch w s) as [[[] | e] s1] eqn:Hrun; [| exact Hpush].
  exfalso. unfold push_template_branch in Hrun. revert Hrun. monad_unfold.
  destruct (remote_origin_error w) as [e |]; cbn.
  - destruct (is_GitCommandError e); discriminate.
  - destruct (git_push_error w) as [e |]; cbn.
    + destruct (is_GitCommandError e); discriminate.
    + destruct Hfail as [Hfail | Hfail]; now contradiction Hfail.
Qed.

(** A pull request is submitted only after a push that succeeded: if the
    trace of a session that began with nothing submitted holds a POST, then
    the remote was found and the force-push raised nothing. *)
Theorem sync_submits_only_after_push w s :
  nothing_posted s ->
  forall e,
    In e (trace (snd (sync w s))) -> is_post e = true ->
    remote_origin_error w = None /\ git_push_error w = None.
Proof.
  intros Hnone e Hin Hpost.
  destruct (remote_origin_error w) as [x |] eqn:Horigin;
    [| destruct (git_push_error w) as [x |] eqn:Hpush; [| split; reflexivity]];
    exfalso.
  all: assert (Hkeep : preserves nothing_posted (sync w)).
  all: try (apply preserves_sync;
    [ apply preserves_inspect_sync_dir; intros v s' H; exact H
    | apply preserves_sync_after_inspection;
      [ apply (preserves_checkout_template_branch _ (fun e => negb (is_post e)));
          auto using nothing_posted_emit; intros v s' H; exact H
      | apply (preserves_delete_template_branch_files _ (fun e => negb (is_post e)));
          auto using nothing_posted_emit
      | apply (preserves_make_template_project _ (fun e => negb (is_post e)));
          auto using nothing_posted_emit
      | apply (preserves_commit_template_changes _ (fun e => negb (is_post e)));
          auto using nothing_posted_emit; intros s' H; exact H
      | apply nothing_posted_failed_push; rewrite ?Horigin, ?Hpush;
          (left; discriminate) || (right; discriminate)
      | apply (preserves_reset_target_dir _ (fun e => negb (is_post e)));
          auto using nothing_posted_emit; intros v s' H; exact H ] ]).
  all: specialize (Hkeep s Hnone e Hin); congruence.
Qed.

Lemma sync_submits_only_after_push_witness :
  remote_origin_error nominal_world = None /\ git_push_error nominal_world = None.
Proof.
  apply (sync_submits_only_after_push nominal_world (example_session nominal_world)
           ltac:(intros e [])
           (HttpPostPull (PStr "alice") (PStr "demo")
              (mkPrContent "Important cookietemple template update 1.3.0 released!"
                 pr_body_text true "TEMPLATE" "development")
              "alice" "secret")).
  - vm_compute. do 11 right. left. reflexivity.
  - reflexivity.
Defined.

Lemma reset_target_dir_raises_exit w s e s' :
  reset_target_dir w s = (Raise e, s') -> e = SystemExit 1.
Proof.
  unfold reset_target_dir. monad_unfold.
  destruct (original_branch (self s)) as [b |]; cbv beta iota; [| discriminate].
  destruct (checkout_ok w b); cbn; [discriminate |].
  intros H. now injection H as <- _.
Qed.

Lemma sync_after_commit_raises_exit w s e s' :
  sync_after_commit w s = (Raise e, s') -> is_Exception e = false.
Proof.
  unfold sync_after_commit, bind, get_self.
  destruct (made_changes (self s)).
  - unfold try_except.
    destruct (push_and_pr w s) as [[[] | x] s1].
    + intros H. destruct (reset_target_dir w s1) as [[[] | y] s2] eqn:Hr;
        [discriminate |].
      injection H as <- _. now rewrite (reset_target_dir_raises_exit _ _ _ _ Hr).
    + destruct (is_Exception x) eqn:Hx.
      * unfold sys_exit, raise.
        destruct (reset_target_dir w s1) as [[[] | y] s2] eqn:Hr;
          intros H; injection H as <- _; [reflexivity |].
        now rewrite (reset_target_dir_raises_exit _ _ _ _ Hr).
      * intros H. injection H as <- _. exact Hx.
  - unfold ret. intros H.
    destruct (reset_target_dir w s) as [[[] | y] s2] eqn:Hr; [discriminate |].
    injection H as <- _. now rewrite (reset_target_dir_raises_exit _ _ _ _ Hr).
Qed.

(** Once the commit step has returned, a session ends normally or by
    [sys.exit]: an ordinary exception that escapes [sync] was raised before
    the push, in one of the steps up to the commit. *)
Theorem sync_ordinary_exception_is_from_before_push w s e s' :
  sync w s = (Raise e, s') ->
  is_Exception e = true ->
  sync_until_commit w s = (Raise e, s').
Proof.
  rewrite sync_phases. unfold bind.
  destruct (sync_until_commit w s) as [[b | x] s1];
    [| intros H _; now injection H as <- <-].
  intros Hrun Hexn. apply sync_after_commit_raises_exit in Hrun. congruence.
Qed.

Lemma sync_ordinary_exception_is_from_before_push_witness :
  sync_until_commit world_regeneration_fails
    (example_session world_regeneration_fails)
  = (Raise (OtherException "RuntimeError"),
     snd (sync world_regeneration_fails (example_session world_regeneration_fails))).
Proof.
  apply (sync_ordinary_exception_is_from_before_push world_regeneration_fails
           (example_session world_regeneration_fails)).
  - vm_compute. reflexivity.
  - reflexivity.
Defined.

(** An exit raised inside the push or the pull-request step is no
    [Exception], so the handler of [sync] does not catch it: the session
    ends in the state that step left, and no restoring checkout is issued.
    A rejected push is such a case. *)
Theorem sync_exit_in_push_or_pr_skips_restoration w s b s1 :
  sync_until_commit w s = (Ret b, s1) ->
  made_changes (self s1) = true ->
  (forall e s2,
      push_and_pr w s1 = (Raise e, s2) ->
      is_Exception e = false ->
      sync w s = (Raise e, s2)) /\
  (remote_origin_error w = None ->
   git_push_error w = Some GitCommandError ->
   sync w s
   = (Raise (SystemExit 1),
      mkSt (self s1) (active_branch s1)
           (trace s1 ++ [SetTrackingBranch "origin/TEMPLATE"; GitPushForce]))).
Proof.
  intros Hcommit Hmade.
  assert (Hgen : forall e s2,
             push_and_pr w s1 = (Raise e, s2) -> is_Exception e = false ->
             sync w s = (Raise e, s2)).
  { intros e s2 Hraise Hexn.
    rewrite sync_phases, (bind_Ret _ _ _ _ _ Hcommit).
    unfold sync_after_commit, get_self, bind at 1 2.
    rewrite Hmade. unfold try_except. now rewrite Hraise, Hexn. }
  split; [exact Hgen |].
  intros Horigin Hpush. apply Hgen; [| reflexivity].
  unfold push_and_pr, push_template_branch. monad_unfold.
  rewrite Horigin. cbn. rewrite Hpush. cbn. now rewrite <- app_assoc.
Qed.

Lemma sync_exit_in_push_or_pr_skips_restoration_witness :
  sync world_push_rejected (example_session world_push_rejected)
  = (Raise (SystemExit 1),
     mkSt (self (snd (sync_until_commit world_push_rejected
                        (example_session world_push_rejected))))
          "TEMPLATE"
          [GitCheckoutNew "origin/TEMPLATE" "TEMPLATE";
           Unlink "/home/alice/demo/README.md"; Rmtree "/home/alice/demo/src";
           ChooseDomain example_dot; CopyTree (PStr "demo") "/home/alice/demo";
           GitAddAll;
           Popen ["git"; "commit"; "-m"; "Cookietemple sync"; "a.txt"; "d.yml"];
           Popen ["git"; "stash"];
           SetTrackingBranch "origin/TEMPLATE"; GitPushForce]).
Proof.
  rewrite (proj2 (sync_exit_in_push_or_pr_skips_restoration world_push_rejected
                    (example_session world_push_rejected) true
                    (snd (sync_until_commit world_push_rejected
                            (example_session world_push_rejected)))
                    ltac:(vm_compute; reflexivity) ltac:(vm_compute; reflexivity)))
    by (vm_compute; reflexivity).
  vm_compute. reflexivity.
Defined.

(** ** Committing: failures *)

(** [made_changes] is set only on the path that returns [True]: when the
    commit step raises, the object is as it was, and when it returns
    [False] the working copy was clean and nothing at all has changed. *)
Theorem commit_template_changes_sets_flag_only_on_success w s :
  (forall e s', commit_template_changes w s = (Raise e, s') -> self s' = self s) /\
  (forall s', commit_template_changes w s = (Ret false, s') ->
              s' = s /\ dirty_after_regeneration w = false) /\
  (forall s', commit_template_changes w s = (Ret true, s') ->
              made_changes (self s') = true /\ dirty_after_regeneration w = true).
Proof.
  unfold commit_template_changes, get_blacklisted_sync_globs.
  assert (Hsolve : forall (r : result bool) (s1 : St),
             (r = Ret true -> made_changes (self s1) = true) ->
             (r = Ret false -> False) ->
             (forall e, r = Raise e -> self s1 = self s) ->
             (forall e s', (r, s1) = (Raise e, s') -> self s' = self s) /\
             (forall s', (r, s1) = (Ret false, s') ->
                         s' = s /\ true = false) /\
             (forall s', (r, s1) = (Ret true, s') ->
                         made_changes (self s') = true /\ true = true)).
  { intros r s1 Ht Hf He. repeat split.
    - intros e s' H. injection H as -> <-. now apply (He e).
    - injection H as -> _. now destruct Hf.
    - injection H as -> _. now destruct Hf.
    - injection H as -> <-. now apply Ht. }
  destruct (dirty_after_regeneration w); cbn [negb]; monad_unfold.
  - destruct (git_add_error w) as [x |]; cbn.
    { destruct (is_Exception x); apply Hsolve; intros; try discriminate; reflexivity. }
    destruct (config_items _ _) as [items |]; cbn.
    2: { apply Hsolve; intros; try discriminate; reflexivity. }
    destruct (popen_error w _) as [x |]; cbn.
    { destruct (is_Exception x); apply Hsolve; intros; try discriminate; reflexivity. }
    destruct (popen_error w _) as [x |]; cbn.
    { destruct (is_Exception x); apply Hsolve; intros; try discriminate; reflexivity. }
    apply Hsolve; intros; try discriminate; reflexivity.
  - repeat split; intros; try discriminate.
    match goal with H : _ = (Ret false, _) |- _ => now injection H as <- end.
Qed.

Lemma commit_template_changes_sets_flag_only_on_success_witness :
  self (snd (commit_template_changes world_no_blacklist_section
               (inspected_session world_no_blacklist_section)))
  = self (inspected_session world_no_blacklist_section).
Proof.
  apply (proj1 (commit_template_changes_sets_flag_only_on_success
                  world_no_blacklist_section
                  (inspected_session world_no_blacklist_section))
           (SystemExit 1)).
  vm_compute. reflexivity.
Defined.

(** ** The version comparator on a repository *)

(** [has_template_version_changed] exits with status 1 when neither
    [development] nor [master] can be checked out.  When it returns, it has
    left the repository on [development], or on [master] if [development]
    could not be checked out, both version strings have parsed, and the
    flags and the two strings it returns are those of the parsed versions. *)
Theorem has_template_version_changed_outcomes w dir s :
  (git_repo_error w dir = None ->
   checkout_ok w "development" = false ->
   checkout_ok w "master" = false ->
   has_template_version_changed w dir s
   = (Raise (SystemExit 1),
      mkSt (self s) (active_branch s)
           (trace s ++ [GitCheckout "development"; GitCheckout "master"]))) /\
  (forall flags last_sync current s',
      has_template_version_changed w dir s = (Ret (flags, last_sync, current), s') ->
      self s' = self s /\
      ((checkout_ok w "development" = true /\ active_branch s' = "development") \/
       (checkout_ok w "development" = false /\ checkout_ok w "master" = true /\
        active_branch s' = "master")) /\
      exists last_text handle current_text a b,
        load_project_template_version_and_handle w dir = inr (last_text, handle) /\
        version_parse w last_text = inr a /\
        load_ct_template_version w handle = inr current_text /\
        version_parse w current_text = inr b /\
        flags = version_flags a b /\
        last_sync = version_str a /\ current = version_str b).
Proof.
  unfold has_template_version_changed. split.
  - intros Hrepo Hdev Hmaster. monad_unfold. rewrite Hrepo. cbn.
    rewrite Hdev. cbn. rewrite Hmaster. cbn. now rewrite <- app_assoc.
  - intros flags last_sync current s'. monad_unfold.
    destruct (git_repo_error w dir); cbn; [discriminate |].
    destruct (checkout_ok w "development") eqn:Hdev; cbn;
      [| destruct (checkout_ok w "master") eqn:Hmaster; cbn; [| discriminate]].
    all: destruct (load_project_template_version_and_handle w dir)
           as [e | [last_text handle]] eqn:Hload; cbn; [discriminate |].
    all: destruct (version_parse w last_text) as [e | a] eqn:Ha; cbn;
           [discriminate |].
    all: destruct (load_ct_template_version w handle)
           as [e | current_text] eqn:Hct; cbn; [discriminate |].
    all: destruct (version_parse w current_text) as [e | b] eqn:Hb; cbn;
           [discriminate |].
    all: intros H; injection H as <- <- <- <-; cbn.
    all: split; [reflexivity |]; split; [auto |].
    all: exists last_text, handle, current_text, a, b; repeat split; assumption.
Qed.

Lemma has_template_version_changed_outcomes_witness :
  fst (has_template_version_changed
         (with_checkout nominal_world true (fun _ => false))
         "/home/alice/demo" (example_session nominal_world))
  = Raise (SystemExit 1) /\
  active_branch
    (snd (has_template_version_changed
            (with_checkout nominal_world true
               (fun ref => negb (ref =? "development")))
            "/home/alice/demo" (example_session nominal_world)))
  = "master".
Proof.
  split.
  - rewrite (proj1 (has_template_version_changed_outcomes
                      (with_checkout nominal_world true (fun _ => false))
                      "/home/alice/demo" (example_session nominal_world)))
      by (vm_compute; reflexivity).
    reflexivity.
  - destruct (proj2 (has_template_version_changed_outcomes
                       (with_checkout nominal_world true
                          (fun ref => negb (ref =? "development")))
                       "/home/alice/demo" (example_session nominal_world))
                (false, true, false) "1.2.3" "1.3.0"
                (snd (has_template_version_changed
                        (with_checkout nominal_world true
                           (fun ref => negb (ref =? "development")))
                        "/home/alice/demo" (example_session nominal_world)))
                ltac:(vm_compute; reflexivity))
      as (_ & [[Hdev _] | (_ & _ & Hbranch)] & _).
    + vm_compute in Hdev. discriminate Hdev.
    + exact Hbranch.
Defined.

(** No update is reported exactly when no component of the current version
    is larger than the same component of the version last synced. *)
Theorem version_flags_none_iff (a b : Version) :
  version_flags a b = (false, false, false) <->
  (major b <= major a)%N /\ (minor b <= minor a)%N /\ (micro b <= micro a)%N.
Proof.
  unfold version_flags.
  destruct (N.ltb_spec (major a) (major b));
    [split; [discriminate | intros (? & _); lia] |].
  destruct (N.ltb_spec (minor a) (minor b));
    [split; [discriminate | intros (_ & ? & _); lia] |].
  destruct (N.ltb_spec (micro a) (micro b));
    [split; [discriminate | intros (_ & _ & ?); lia] |].
  split; [intros _; repeat split; assumption | reflexivity].
Qed.

(** ** The split of the changed files, continued *)

Lemma filter_filter_andb {A} (p q : A -> bool) (l : list A) :
  filter p (filter q l) = filter (fun x => q x && p x) l.
Proof.
  induction l as [| x l IH]; [reflexivity |]. cbn.
  destruct (q x); cbn; [destruct (p x) |]; now rewrite IH.
Qed.

(** Without blacklisted globs every changed file is committed, in the order
    given, and nothing is blacklisted. *)
Theorem files_to_commit_no_globs (changed_files : list string) :
  files_to_commit changed_files [] = changed_files /\
  blacklisted_changed_files changed_files [] = [].
Proof.
  split; [| reflexivity].
  rewrite files_to_commit_filter. cbn. apply filter_true.
Qed.

(** Blacklisting with two lists of globs one after the other leaves the same
    files to commit as blacklisting with both at once: further globs can
    only take files away, never bring one back. *)
Theorem files_to_commit_app (changed_files globs more : list string) :
  files_to_commit changed_files (globs ++ more)
  = files_to_commit (files_to_commit changed_files globs) more.
Proof.
  rewrite !files_to_commit_filter, filter_filter_andb.
  apply filter_ext. intros file. now rewrite existsb_app, negb_orb.
Qed.

(** No path is given to the commit exactly when every changed file matches a
    blacklisted glob; the command is then the bare
    [git commit -m "Cookietemple sync"]. *)
Theorem files_to_commit_empty_iff (changed_files globs : list string) :
  (files_to_commit changed_files globs = [] <->
   forall file, In file changed_files ->
                exists g, In g globs /\ fnmatchcase file g = true) /\
  (files_to_commit changed_files globs = [] ->
   commit_argv changed_files globs = ["git"; "commit"; "-m"; "Cookietemple sync"]).
Proof.
  split.
  - rewrite files_to_commit_filter. split.
    + intros Hnil file Hin.
      destruct (existsb (fnmatchcase file) globs) eqn:Hm;
        [now apply existsb_exists in Hm |].
      assert (Hf : In file (filter (fun file => negb (existsb (fnmatchcase file) globs))
                              changed_files))
        by (apply filter_In; now rewrite Hm).
      rewrite Hnil in Hf. contradiction.
    + intros Hall.
      rewrite (filter_ext_in _ (fun _ => false)); [apply filter_false |].
      intros file Hin. apply negb_false_iff, existsb_exists. now apply Hall.
  - intros Hnil. unfold commit_argv. now rewrite Hnil.
Qed.

Lemma files_to_commit_empty_iff_witness :
  commit_argv ["CHANGELOG.md"; "docs/index.md"] ["*.md"]
  = ["git"; "commit"; "-m"; "Cookietemple sync"].
Proof.
  apply (proj2 (files_to_commit_empty_iff ["CHANGELOG.md"; "docs/index.md"] ["*.md"])).
  apply (proj1 (files_to_commit_empty_iff ["CHANGELOG.md"; "docs/index.md"] ["*.md"])).
  intros file [<- | [<- | []]]; exists "*.md"; (split; [now left | reflexivity]).
Defined.

(** ** The policy check, continued *)

(** The policy check reads the flags [patch_update] and [minor_update]
    only: its answer is the same whatever [major_update] is; and it leaves
    the object, the branch and the trace as they were. *)
Theorem check_sync_level_ignores_major_update w s :
  snd (check_sync_level w s) = s /\
  forall v,
    fst (check_sync_level w
           (mkSt (set_major_update v (self s)) (active_branch s) (trace s)))
    = fst (check_sync_level w s).
Proof.
  assert (Hrun : forall o,
    patch_update o = patch_update (self s) ->
    minor_update o = minor_update (self s) ->
    cfg_path o = cfg_path (self s) ->
    let s' := mkSt o (active_branch s) (trace s) in
    snd (check_sync_level w s') = s' /\
    fst (check_sync_level w s') = fst (check_sync_level w s)).
  { intros o Hp Hm Hpath. cbv zeta. unfold check_sync_level. monad_unfold.
    cbn [self]. rewrite Hpath.
    destruct (config_items (read_config w (cfg_path (self s))) "sync_level")
      as [[| [key lvl] [| ? ?]] |]; cbv beta iota; try (split; reflexivity).
    destruct (negb (str_contains "ct_sync_level" key) || negb (valid_level lvl));
      cbv beta iota; try (split; reflexivity).
    cbn [self]. rewrite Hp, Hm.
    destruct (patch_update (self s)); try (split; reflexivity).
    destruct (minor_update (self s)); split; reflexivity. }
  split.
  - destruct (Hrun (self s) eq_refl eq_refl eq_refl) as [Hsame _].
    cbv zeta in Hsame. now rewrite state_eta in Hsame.
  - intros v. now destruct (Hrun (set_major_update v (self s)) eq_refl eq_refl eq_refl).
Qed.

(** A [sync_level] section whose single entry has a key that does not
    contain [ct_sync_level] ends the process with exit status 1, even when
    its value is a valid level. *)
Theorem check_sync_level_wrong_key_exits w s key lvl :
  config_items (read_config w (cfg_path (self s))) "sync_level" = Some [(key, lvl)] ->
  str_contains "ct_sync_level" key = false ->
  check_sync_level w s = (Raise (SystemExit 1), s).
Proof.
  intros Hcfg Hkey. unfold check_sync_level. monad_unfold.
  rewrite Hcfg. cbv beta iota. now rewrite Hkey.
Qed.

Lemma check_sync_level_wrong_key_exits_witness :
  check_sync_level
    (with_config nominal_world [("sync_level", [("sync_level", "minor")])])
    (example_session nominal_world)
  = (Raise (SystemExit 1), example_session nominal_world).
Proof.
  apply (check_sync_level_wrong_key_exits _ _ "sync_level" "minor");
    vm_compute; reflexivity.
Defined.

(** ** The routes of the generated Flask project *)

Lemma dict_get_set_same (d : dict) (k : string) (v : pyval) :
  dict_get (dict_set d k v) k = Some v.
Proof.
  induction d as [| [k' v'] d IH]; cbn.
  - now rewrite String.eqb_refl.
  - destruct (k' =? k) eqn:Hk; cbn; [now rewrite String.eqb_refl |].
    now rewrite Hk.
Qed.

Lemma dict_get_set_other (d : dict) (k k0 : string) (v : pyval) :
  k0 <> k -> dict_get (dict_set d k v) k0 = dict_get d k0.
Proof.
  intros Hne. induction d as [| [k' v'] d IH]; cbn.
  - apply String.eqb_neq in Hne. rewrite String.eqb_sym. now rewrite Hne.
  - destruct (k' =? k) eqn:Hk; cbn.
    + apply String.eqb_eq in Hk. subst k'.
      assert (Hk0 : (k =? k0) = false) by (apply String.eqb_neq; congruence).
      now rewrite Hk0.
    + destruct (k' =? k0); [reflexivity | exact IH].
Qed.

(** After a request to [/language/<language>] the session holds that
    language under ["language"], whatever it held before, and every other
    key of the session is as it was; the answer is the redirect that [/]
    gives, and [/] and [/index] leave the session alone. *)
Theorem set_language_stores_language url_for language session :
  dict_get (snd (set_language url_for language session)) "language" = Some language /\
  (forall k, k <> "language" ->
             dict_get (snd (set_language url_for language session)) k
             = dict_get session k) /\
  fst (set_language url_for language session) = fst (root url_for session) /\
  snd (root url_for session) = session /\
  snd (index session) = session.
Proof.
  unfold set_language, root, index. cbn [fst snd].
  split; [apply dict_get_set_same |].
  split; [intros k Hk; now apply dict_get_set_other |].
  repeat split.
Qed.

Lemma set_language_stores_language_witness :
  dict_get (snd (set_language (fun endpoint => "/index") (PStr "de")
                   [("user", PStr "alice"); ("language", PStr "en")]))
           "user"
  = Some (PStr "alice").
Proof.
  rewrite (proj1 (proj2 (set_language_stores_language
                           (fun endpoint => "/index") (PStr "de")
                           [("user", PStr "alice"); ("language", PStr "en")]))
             "user")
    by discriminate.
  reflexivity.
Defined.
